(** * Retrieval and routing engine of the RAG practical

    A shallow embedding of [vector_store.py], [reranker.py],
    [conversation.py], [web_search.py] and [rag.py] of
    [practicals/hands-on-rags-llm-augmented-search/src/demo_indabax],
    followed by the properties of the engine.

    Modelling conventions.
    - Python floats (similarities, MMR scores, reranker scores) and the
      components of vectors are exact rationals [Q]; rounding (also that
      of a stored vector to [float4]), infinities and NaN are outside the
      model.
      Python's [==], [>] on floats are [Qeq_bool] and [Qgtb].
    - Counts ([k], [fetch_k], [top_k], SQL [LIMIT]) are natural numbers.
    - Python [str] is [string], and text is ASCII.  [str.lower] is not
      character-wise on other text (it follows the Unicode database), so
      it is a parameter of the router, and what is proved of it is proved
      of ASCII questions, stated as such.
    - The PostgreSQL table is the list of its rows in storage order.  The
      scan behind [ORDER BY embedding <=> q] reaches the rows of the lists
      the [ivfflat] index probes, or all rows when the planner scans the
      table: which rows it reaches is a parameter.  On the rows reached,
      [ORDER BY d LIMIT n] is a stable sort by [d] followed by [take n]
      (ties keep storage order).
    - [cur.execute(query, params)] binds the parameters to the
      placeholders of the statement in order; a parameter that does not
      fit its placeholder makes the call raise.
    - External models and services (the pgvector operator [<=>], the
      cross-encoder, the embedding model, the chat completion endpoint,
      DuckDuckGo) are section variables.  Langfuse tracing and [print] do
      not influence any returned value and are left out. *)

From Stdlib Require Import QArith Qabs Lia Lqa Ascii String Sorted.
From stdpp Require Import base option list strings gmap pretty.

Local Open Scope Q_scope.
Local Open Scope string_scope.
Local Open Scope list_scope.

(** ** Python built-ins used by the sources *)

Module Py.

(** [x > y] on floats. *)
Definition Qgtb (x y : Q) : bool := negb (Qle_bool x y).

(** The two-argument [max(a, b)]: [b] only when [b > a]. *)
Definition max2 (a b : Q) : Q := if Qgtb b a then b else a.

(** [max(xs, key=key)]: the running best is replaced only by a
    strictly greater key, so the first maximal element wins. *)
Fixpoint max_from {A : Type} (key : A -> Q) (best : A) (xs : list A) : A :=
  match xs with
  | [] => best
  | x :: xs' => max_from key (if Qgtb (key x) (key best) then x else best) xs'
  end.

Definition max_by {A : Type} (key : A -> Q) (xs : list A) : option A :=
  match xs with
  | [] => None
  | x :: xs' => Some (max_from key x xs')
  end.

(** [xs.remove(v)]: drops the first element equal to [v]. *)
Fixpoint remove {A : Type} (eqb : A -> A -> bool) (v : A) (xs : list A) : list A :=
  match xs with
  | [] => []
  | x :: xs' => if eqb x v then xs' else x :: remove eqb v xs'
  end.

(** A stable sort: [x] is placed ahead of the first [y] with
    [before x y], and earlier elements are inserted last. *)
Fixpoint insert_by {A : Type} (before : A -> A -> bool) (x : A) (l : list A) : list A :=
  match l with
  | [] => [x]
  | y :: l' => if before x y then x :: y :: l' else y :: insert_by before x l'
  end.

Definition stable_sort {A : Type} (before : A -> A -> bool) (l : list A) : list A :=
  foldr (insert_by before) [] l.

(** [xs.sort(key=key, reverse=True)]: stable, descending. *)
Definition sort_desc {A : Type} (key : A -> Q) (l : list A) : list A :=
  stable_sort (fun x y => Qle_bool (key y) (key x)) l.

(** ASCII text: every character is below 128. *)
Definition is_ascii (s : string) : bool :=
  forallb (fun c => (nat_of_ascii c <? 128)%nat) (list_ascii_of_string s).

(** What [str.lower] does to ASCII text: [A]-[Z] become [a]-[z] and every
    other character stays. *)
Definition lower_ascii (c : ascii) : ascii :=
  let n := nat_of_ascii c in
  if ((65 <=? n)%nat && (n <=? 90)%nat)%bool then ascii_of_nat (n + 32) else c.

Fixpoint ascii_lower (s : string) : string :=
  match s with
  | EmptyString => EmptyString
  | String c s' => String (lower_ascii c) (ascii_lower s')
  end.

Fixpoint startswith (s p : string) {struct p} : bool :=
  match p, s with
  | EmptyString, _ => true
  | String _ _, EmptyString => false
  | String a p', String b s' => bool_decide (a = b) && startswith s' p'
  end.

(** [kw in s] for strings: substring containment. *)
Fixpoint contains (s kw : string) : bool :=
  startswith s kw ||
  match s with
  | EmptyString => false
  | String _ s' => contains s' kw
  end.

(** [s[:n]] on strings, [n] a count. *)
Fixpoint str_take (n : nat) (s : string) : string :=
  match n, s with
  | S n', String c s' => String c (str_take n' s')
  | _, _ => EmptyString
  end.

(** [any(p(x) for x in xs)]. *)
Definition any {A : Type} (p : A -> bool) (xs : list A) : bool := existsb p xs.

End Py.

(** ** vector_store.py *)

Module VectorStore.

(** A JSON scalar stored in the [metadata] column. *)
Inductive jscalar : Type :=
| JStr (s : string)
| JInt (z : Z).

#[global] Instance jscalar_eq_dec : EqDecision jscalar.
Proof. solve_decision. Defined.

Abbreviation metadata_t := (gmap string jscalar).
Abbreviation vector := (list Q).

(** A row of the [documents] table. *)
Record row : Type := mkRow {
  row_id : N;
  row_content : string;
  row_metadata : metadata_t;
  row_embedding : vector
}.

(** A row returned by the [SELECT]: [id, content, metadata, similarity]. *)
Record srow : Type := mkSRow {
  id : N;
  content : string;
  metadata : metadata_t;
  similarity : Q
}.

(** A Python dict handed to callers: the keys [id], [content],
    [metadata], and [similarity] when the dict is [dict(row)]. *)
Record doc : Type := mkDoc {
  doc_id : N;
  doc_content : string;
  doc_metadata : metadata_t;
  doc_similarity : option Q
}.

(** [dict(row)] of [similarity_search]. *)
Definition dict_of_row (r : srow) : doc :=
  mkDoc (id r) (content r) (metadata r) (Some (similarity r)).

(** The [chunk] dict built in step 4 of [mmr_search]. *)
Definition chunk_of_row (r : srow) : doc :=
  mkDoc (id r) (content r) (metadata r) None.

(** Python [==] on two result rows (dict equality, floats by value). *)
Definition srow_eqb (a b : srow) : bool :=
  bool_decide (id a = id b) && bool_decide (content a = content b)
  && bool_decide (metadata a = metadata b) && Qeq_bool (similarity a) (similarity b).

(** [metadata @> filter]: every pair of the filter is in the metadata. *)
Definition jsonb_contains (md flt : metadata_t) : bool :=
  forallb (fun kv => bool_decide (md !! kv.1 = Some kv.2)) (map_to_list flt).

(** The optional [WHERE] clause; [if filter_metadata:] is false for
    [None] and for the empty dict. *)
Definition where_clause (filter_metadata : option metadata_t) (r : row) : bool :=
  match filter_metadata with
  | None => true
  | Some flt => if bool_decide (flt = ∅) then true else jsonb_contains (row_metadata r) flt
  end.

(** Truth value of the optional filter, [if filter_metadata:]. *)
Definition filter_given (filter_metadata : option metadata_t) : bool :=
  match filter_metadata with
  | None => false
  | Some flt => negb (bool_decide (flt = ∅))
  end.

(** [ORDER BY key] ascending, ties in storage order. *)
Definition order_by {A : Type} (key : A -> Q) (l : list A) : list A :=
  Py.stable_sort (fun x y => Qle_bool (key x) (key y)) l.

(** The exceptions of psycopg the model tells apart, all of them
    [psycopg.DatabaseError]: a value the column type refuses, a duplicate
    primary key, and a parameter that does not fit its placeholder. *)
Inductive db_error : Type :=
| DataException
| UniqueViolation
| BadParameter.

(** A parameter of [cur.execute]: the text of [json.dumps(filter)], a
    [Vector], or an [int]. *)
Inductive param : Type :=
| PJson (filter_metadata : metadata_t)
| PVector (v : vector)
| PInt (n : nat).

Section Store.

(** The pgvector operator [<=>] (cosine distance). *)
Variable cosine_distance : vector -> vector -> Q.

(** Whether the scan of the table for a query vector reaches a row: the
    row is in a list the [ivfflat] index of [initialize] probes, or the
    planner scans the whole table. *)
Variable probed : list row -> vector -> row -> bool.

Definition index_scan (table : list row) (query_embedding : vector) : list row :=
  filter (fun r => probed table query_embedding r = true) table.

(** The select list [id, content, metadata,
    1 - (embedding <=> q) as similarity] on one row. *)
Definition select_list (query_embedding : vector) (r : row) : srow :=
  mkSRow (row_id r) (row_content r) (row_metadata r)
         (1 - cosine_distance (row_embedding r) query_embedding).

(** The statement of both searches, with a value at each placeholder:
    [SELECT id, content, metadata, 1 - (embedding <=> %s::vector) as similarity
     FROM t [WHERE metadata @> %s] ORDER BY embedding <=> %s::vector LIMIT %s]. *)
Definition select_similar (table : list row) (q_select : vector)
    (filter_metadata : option metadata_t) (q_order : vector) (limit : nat) : list srow :=
  let matching :=
    filter (fun r => where_clause filter_metadata r = true) (index_scan table q_order) in
  let ordered :=
    order_by (fun r => cosine_distance (row_embedding r) q_order) matching in
  map (select_list q_select) (take limit ordered).

(** [cur.execute(query, params)] followed by [cur.fetchall()]: the
    placeholders are, in order, a vector, the filter when the statement
    has a [WHERE] clause, a vector and the limit. *)
Definition execute (with_where : bool) (params : list param) (table : list row)
    : db_error + list srow :=
  match with_where, params with
  | false, [PVector q_select; PVector q_order; PInt limit] =>
      inr (select_similar table q_select None q_order limit)
  | true, [PVector q_select; PJson filter_metadata; PVector q_order; PInt limit] =>
      inr (select_similar table q_select (Some filter_metadata) q_order limit)
  | _, _ => inl BadParameter
  end.

(** The fetch of both searches.  With a filter ([if filter_metadata:] is
    false for [None] and for the empty dict) the statement gets its
    [WHERE] clause and the parameters are passed as
    [(json.dumps(filter_metadata), Vector(q), Vector(q), limit)]. *)
Definition fetch (table : list row) (query_embedding : vector) (limit : nat)
    (filter_metadata : option metadata_t) : db_error + list srow :=
  if filter_given filter_metadata
  then execute true [PJson (default ∅ filter_metadata); PVector query_embedding;
                     PVector query_embedding; PInt limit] table
  else execute false [PVector query_embedding; PVector query_embedding; PInt limit]
         table.

Definition similarity_search (table : list row) (query_embedding : vector)
    (k : nat) (filter_metadata : option metadata_t) : db_error + list (doc * Q) :=
  match fetch table query_embedding k filter_metadata with
  | inl e => inl e
  | inr results => inr (map (fun r => (dict_of_row r, similarity r)) results)
  end.

(** [abs(len(candidate["content"]) - len(sel["content"]))]. *)
Definition len_diff (candidate sel : srow) : Z :=
  Z.abs (Z.of_nat (String.length (content candidate))
         - Z.of_nat (String.length (content sel))).

(** [1.0 / (1.0 + len_diff / 100)]. *)
Definition length_similarity (candidate sel : srow) : Q :=
  1 / (1 + inject_Z (len_diff candidate sel) / 100).

(** The inner [for sel in selected] loop, starting from [0]. *)
Definition max_sim_to_selected (candidate : srow) (selected : list srow) : Q :=
  fold_left (fun acc sel => Py.max2 acc (length_similarity candidate sel)) selected 0.

Definition mmr_score (lambda_mult : Q) (selected : list srow) (candidate : srow) : Q :=
  lambda_mult * similarity candidate
  - (1 - lambda_mult) * max_sim_to_selected candidate selected.

(** The list [mmr_scores] built by the [for candidate in remaining] loop. *)
Definition mmr_scores (lambda_mult : Q) (selected remaining : list srow)
    : list (srow * Q) :=
  map (fun candidate => (candidate, mmr_score lambda_mult selected candidate)) remaining.

(** The [while len(selected) < k and remaining] loop.  [None] means
    the fuel ran out before the loop condition became false. *)
Fixpoint mmr_loop (fuel : nat) (k : nat) (lambda_mult : Q)
    (selected remaining : list srow) : option (list srow) :=
  if ((length selected <? k)%nat && negb (bool_decide (remaining = [])))%bool then
    match fuel with
    | O => None
    | S fuel' =>
        match Py.max_by snd (mmr_scores lambda_mult selected remaining) with
        | Some (best_candidate, _) =>
            mmr_loop fuel' k lambda_mult (selected ++ [best_candidate])
                     (Py.remove srow_eqb best_candidate remaining)
        | None => mmr_loop fuel' k lambda_mult selected remaining
        end
    end
  else Some selected.

(** The items selected by steps 2 and 3 for a non-empty fetch. *)
Definition mmr_select (k : nat) (lambda_mult : Q) (candidates : list srow)
    : option (list srow) :=
  match candidates with
  | [] => Some []
  | first :: rest => mmr_loop (length rest) k lambda_mult [first] rest
  end.

(** [None] when the loop runs out of fuel, an exception of the fetch
    otherwise passed on. *)
Definition mmr_search (table : list row) (query_embedding : vector) (k : nat)
    (lambda_mult : Q) (fetch_k : nat) (filter_metadata : option metadata_t)
    : option (db_error + list (doc * Q)) :=
  match fetch table query_embedding fetch_k filter_metadata with
  | inl e => Some (inl e)
  | inr candidates =>
      selected ← mmr_select k lambda_mult candidates;
      Some (inr (map (fun d => (chunk_of_row d, similarity d)) (take k selected)))
  end.

End Store.

End VectorStore.

(** ** reranker.py *)

Module Reranker.
Import VectorStore.

Section Model.

(** The cross-encoder: the score of one [[query, passage]] pair. *)
Variable cross_encoder : string -> string -> Q.

(** [self.model.predict(pairs)]: one score per pair, in order. *)
Definition predict (pairs : list (string * string)) : list Q :=
  map (fun p => cross_encoder p.1 p.2) pairs.

Definition rerank (query : string) (documents : list (doc * Q)) (top_k : nat)
    : list (doc * Q) :=
  match documents with
  | [] => []
  | _ :: _ =>
      let pairs := map (fun d => (query, doc_content d.1)) documents in
      let scores := predict pairs in
      let reranked := map (fun ds => ((ds.1).1, ds.2)) (zip documents scores) in
      take top_k (Py.sort_desc snd reranked)
  end.

End Model.

End Reranker.

(** ** conversation.py *)

Module Conversation.
Import VectorStore.

(** An entry of a result's [sources] list. *)
Record source : Type := mkSource {
  src_content : string;
  src_filename : option jscalar;
  src_section : option jscalar;
  src_score : Q;
  src_link : option string
}.

(** The [metadata] dict of a stored message, by the keys [rag.py] writes. *)
Record msg_metadata : Type := mkMeta {
  sources_used : option nat;
  meta_sources : option (list source);
  web_search_flag : option bool;
  from_web : option bool
}.

Definition no_metadata : msg_metadata := mkMeta None None None None.

Record message : Type := mkMessage {
  role : string;
  content : string;
  timestamp : nat;
  metadata : msg_metadata
}.

(** An OpenAI chat message [{"role": ..., "content": ...}]. *)
Record chat_msg : Type := mkChat { chat_role : string; chat_content : string }.

(** The Redis lists, by key (expiry after [ttl] is not modelled). *)
Abbreviation redis_t := (gmap string (list message)).

Definition key_of (conversation_id : string) : string :=
  "conversation:" +:+ conversation_id.

(** [rpush] of the new message at the end of the list at [key]. *)
Definition add_message (now : nat) (conversation_id role content : string)
    (metadata : option msg_metadata) (db : redis_t) : redis_t :=
  let key := key_of conversation_id in
  let message := mkMessage role content now (default no_metadata metadata) in
  <[ key := default [] (db !! key) ++ [message] ]> db.

(** [lrange key (-limit) (-1)]: the last [limit] entries ([-0] is [0],
    the whole list). *)
Definition get_history (db : redis_t) (conversation_id : string) (limit : nat)
    : list message :=
  let entries := default [] (db !! key_of conversation_id) in
  match limit with
  | O => entries
  | S _ => drop (length entries - limit) entries
  end.

Definition format_for_llm (db : redis_t) (conversation_id : string) (limit : nat)
    (include_system : bool) : list chat_msg :=
  let history := get_history db conversation_id limit in
  let messages :=
    if include_system
    then [mkChat "system" "You are a helpful AI assistant with access to documents via RAG."]
    else [] in
  messages ++ map (fun msg => mkChat (role msg) (content msg)) history.

End Conversation.

(** ** web_search.py *)

Module WebSearch.

(** A hit as DuckDuckGo returns it; each key may be missing. *)
Record ddg_hit : Type := mkHit {
  hit_title : option string;
  hit_body : option string;
  hit_href : option string
}.

Record result : Type := mkResult { title : string; snippet : string; link : string }.

Definition nl : string := String (ascii_of_nat 10) EmptyString.

Section DDG.

(** [self.ddgs.text(query, max_results=n)]; [None] when it raises. *)
Variable ddgs_text : string -> nat -> option (list ddg_hit).

Definition search (self_max_results : nat) (query : string) (max_results : option nat)
    : list result :=
  let max_results :=
    match max_results with
    | Some (S n) => S n
    | _ => self_max_results
    end in
  match ddgs_text query max_results with
  | Some search_results =>
      map (fun r => mkResult (default "" (hit_title r)) (default "" (hit_body r))
                             (default "" (hit_href r)))
          search_results
  | None => []
  end.

End DDG.

Definition format_results_for_context (results : list result) : string :=
  match results with
  | [] => "No web search results found."
  | _ :: _ =>
      fold_left
        (fun context ir =>
           let '(i, r) := ir in
           context +:+ pretty (S i) +:+ ". " +:+ title r +:+ nl
                   +:+ "   " +:+ snippet r +:+ nl
                   +:+ "   Source: " +:+ link r +:+ nl +:+ nl)
        (imap (fun i r => (i, r)) results)
        ("Web search results:" +:+ nl +:+ nl)
  end.

End WebSearch.

(** ** rag.py *)

Module RAG.
Import VectorStore Conversation.

(** *** Tool routing *)

Definition greeting_keywords : list string :=
  ["hello"; "hi"; "hey"; "thank"; "thanks"; "good morning"; "good evening"].

Definition web_search_keywords : list string :=
  ["weather"; "temperature"; "forecast"; "news"; "today"; "current"; "latest";
   "recent"; "price"; "stock"; "market"; "who is the current"; "who won";
   "when did"; "what happened"].

Definition rag_keywords : list string :=
  ["document"; "pdf"; "according to"; "in the"; "from the"; "docling"; "paper"].

Section Router.

(** [str.lower] of Python. *)
Variable str_lower : string -> string.

Definition _route_to_tool (question : string) : string :=
  let question_lower := str_lower question in
  if Py.any (fun kw => Py.contains question_lower kw) greeting_keywords then "direct_llm"
  else if Py.any (fun kw => Py.contains question_lower kw) web_search_keywords
  then "web_search"
  else if Py.any (fun kw => Py.contains question_lower kw) rag_keywords then "rag"
  else "rag".

End Router.

(** *** The orchestrator's world: state, errors, results *)

(** One call of [self.llm.chat.completions.create]. *)
Record llm_request : Type := mkRequest {
  req_model : string;
  req_messages : list chat_msg;
  req_temperature : Q
}.

(** What the orchestrator reads of the response. *)
Record llm_response : Type := mkResponse {
  resp_content : string;
  resp_total_tokens : nat
}.

(** What a query can read and change: the Redis lists, the calls made to
    the LLM so far, and the clock read by [datetime.utcnow()] (it does not
    advance during one query). *)
Record world : Type := mkWorld {
  redis : redis_t;
  llm_calls : list llm_request;
  utcnow : nat
}.

(** [OutOfFuel] stands for an MMR loop that does not finish; the other
    constructors are Python exceptions, [DatabaseError] one of the vector
    store. *)
Inductive exn : Type :=
| AttributeError
| IndexError
| LLMError
| DatabaseError (e : db_error)
| OutOfFuel.

(** The result dict; the two retrieval keys exist on the rag path only. *)
Record query_result : Type := mkQueryResult {
  answer : string;
  sources : list source;
  tool_used : string;
  retrieval_method : option string;
  reranked : option bool;
  num_tokens : nat
}.

(** State and exceptions. *)
Definition M (A : Type) : Type := world -> (exn + A) * world.

Definition ret {A : Type} (a : A) : M A := fun w => (inr a, w).

Definition raise {A : Type} (e : exn) : M A := fun w => (inl e, w).

Definition bind {A B : Type} (c : M A) (f : A -> M B) : M B :=
  fun w =>
    match c w with
    | (inl e, w') => (inl e, w')
    | (inr a, w') => f a w'
    end.

Notation "x <- c ;; k" := (bind c (fun x => k))
  (at level 62, c at next level, right associativity).
Notation "c ;;; k" := (bind c (fun _ => k))
  (at level 62, right associativity).

Definition get_redis : M redis_t := fun w => (inr (redis w), w).

Definition when (b : bool) (c : M unit) : M unit := if b then c else ret tt.

(** [self.conversation_manager.add_message(...)]. *)
Definition cm_add_message (conversation_id role content : string)
    (metadata : option msg_metadata) : M unit :=
  fun w =>
    (inr tt,
     mkWorld (add_message (utcnow w) conversation_id role content metadata (redis w))
             (llm_calls w) (utcnow w)).

(** The configuration held by a [RAGSystem]. *)
Record system : Type := mkSystem {
  conversation_manager : bool;
  reranker : bool;
  llm_model : string;
  web_search : option nat
}.

(** Truth value of [conversation_id and self.conversation_manager]. *)
Definition has_history (self : system) (conversation_id : option string) : bool :=
  match conversation_id with
  | Some cid => negb (bool_decide (cid = "")) && conversation_manager self
  | None => false
  end.

Definition cid_of (conversation_id : option string) : string :=
  default "" conversation_id.

(** [str(v)] of a metadata value inside an f-string. *)
Definition jscalar_str (v : jscalar) : string :=
  match v with
  | JStr s => s
  | JInt z => pretty z
  end.

(** Truth value of a metadata value. *)
Definition jscalar_truthy (v : jscalar) : bool :=
  match v with
  | JStr s => negb (bool_decide (s = ""))
  | JInt z => negb (bool_decide (z = 0%Z))
  end.

Definition nl : string := WebSearch.nl.

Definition join (sep : string) (parts : list string) : string :=
  match parts with
  | [] => ""
  | p :: ps => fold_left (fun acc s => acc +:+ sep +:+ s) ps p
  end.

(** [{"filename": filter_document} if filter_document else None]. *)
Definition filter_metadata_of (filter_document : option string) : option metadata_t :=
  match filter_document with
  | Some f => if bool_decide (f = "") then None else Some {[ "filename" := JStr f ]}
  | None => None
  end.

Section Orchestrator.

Variable str_lower : string -> string.
Variable cosine_distance : vector -> vector -> Q.
Variable probed : list row -> vector -> row -> bool.
Variable cross_encoder : string -> string -> Q.
(** [self.embedding_model.embed_text]. *)
Variable embed_text : string -> vector.
(** The chat completion endpoint; [None] when the call raises. *)
Variable chat_completion : llm_request -> option llm_response.
Variable ddgs_text : string -> nat -> option (list WebSearch.ddg_hit).
(** The rendering [f"{score:.2f}"]. *)
Variable format_2f : Q -> string.
(** The rows of the [documents] table during the query. *)
Variable table : list row.

(** [self.llm.chat.completions.create(...)], recorded in the world. *)
Definition llm_create (model : string) (messages : list chat_msg) (temperature : Q)
    : M llm_response :=
  fun w =>
    let request := mkRequest model messages temperature in
    let w' := mkWorld (redis w) (llm_calls w ++ [request]) (utcnow w) in
    match chat_completion request with
    | Some response => (inr response, w')
    | None => (inl LLMError, w')
    end.

Definition _format_context (results : list (doc * Q)) : string :=
  let formatted :=
    imap (fun i ds =>
            let metadata := doc_metadata ds.1 in
            let source_info :=
              "[Source " +:+ pretty (S i) +:+ ": "
              +:+ jscalar_str (default (JStr "Unknown") (metadata !! "filename")) in
            let source_info :=
              match metadata !! "section" with
              | Some v =>
                  if jscalar_truthy v then source_info +:+ " - " +:+ jscalar_str v
                  else source_info
              | None => source_info
              end in
            let source_info := source_info +:+ " (relevance: " +:+ format_2f ds.2 +:+ ")]" in
            source_info +:+ nl +:+ doc_content ds.1 +:+ nl)
         results in
  join nl formatted.

Definition _answer_directly (self : system) (question : string)
    (conversation_id : option string) (eco_mode : bool) : M query_result :=
  db <- get_redis ;;
  let messages :=
    if has_history self conversation_id
    then format_for_llm db (cid_of conversation_id) 3 true
    else [mkChat "system" "You are a helpful AI assistant."] in
  messages <-
    (if eco_mode then
       match messages with
       | m :: ms =>
           ret (mkChat (chat_role m)
                       (chat_content m +:+ " Be concise and direct in your answers.") :: ms)
       | [] => raise IndexError
       end
     else ret messages) ;;
  let messages := messages ++ [mkChat "user" question] in
  response <- llm_create (llm_model self) messages (7 # 10) ;;
  let answer := resp_content response in
  when (has_history self conversation_id)
    (cm_add_message (cid_of conversation_id) "user" question None ;;;
     cm_add_message (cid_of conversation_id) "assistant" answer None) ;;;
  ret (mkQueryResult answer [] "direct_llm" None None (resp_total_tokens response)).

(** Step 2 of [_answer_with_rag]: the retrieval call. *)
Definition rag_retrieve (question : string) (k : nat) (use_mmr use_rerank : bool)
    (filter_document : option string) : option (db_error + list (doc * Q)) :=
  let query_embedding := embed_text question in
  let filter_metadata := filter_metadata_of filter_document in
  if use_mmr
  then mmr_search cosine_distance probed table query_embedding k (1 # 2) (k * 4)
         filter_metadata
  else Some (similarity_search cosine_distance probed table query_embedding
               (if use_rerank then k * 2 else k)%nat filter_metadata).

(** Step 3 of [_answer_with_rag]: the optional reranking. *)
Definition rag_rerank (self : system) (question : string) (k : nat) (use_rerank : bool)
    (results : list (doc * Q)) : list (doc * Q) :=
  if use_rerank && reranker self && negb (bool_decide (length results = O))
  then Reranker.rerank cross_encoder question results k
  else results.

Definition _answer_with_rag (self : system) (question : string)
    (conversation_id : option string) (k : nat) (use_mmr use_rerank eco_mode : bool)
    (filter_document : option string) : M query_result :=
  match rag_retrieve question k use_mmr use_rerank filter_document with
  | None => raise OutOfFuel
  | Some (inl e) => raise (DatabaseError e)
  | Some (inr results) =>
  let results := rag_rerank self question k use_rerank results in
  match results with
  | [] =>
      ret (mkQueryResult "I couldn't find relevant information in the documents."
             [] "rag" (Some "similarity") (Some false) 0)
  | _ :: _ =>
  let context := _format_context results in
  db <- get_redis ;;
  let messages :=
    if has_history self conversation_id
    then format_for_llm db (cid_of conversation_id) 2 false
    else [] in
  let system_prompt :=
    "You are a helpful AI assistant. Answer based on the provided context."
    +:+ (if eco_mode then " Be concise and direct." else "") in
  let messages := mkChat "system" system_prompt :: messages in
  let user_prompt :=
    "Context from documents:" +:+ nl +:+ context +:+ nl +:+ nl
    +:+ "Question: " +:+ question +:+ nl +:+ nl
    +:+ "Answer based on the context above. If the context doesn't contain relevant information, say so." in
  let messages := messages ++ [mkChat "user" user_prompt] in
  response <- llm_create (llm_model self) messages (3 # 10) ;;
  let answer := resp_content response in
  let sources :=
    map (fun ds =>
           mkSource (Py.str_take 200 (doc_content ds.1) +:+ "...")
                    (doc_metadata ds.1 !! "filename")
                    (doc_metadata ds.1 !! "section")
                    ds.2 None)
        results in
  when (has_history self conversation_id)
    (cm_add_message (cid_of conversation_id) "user" question
       (Some (mkMeta (Some (length sources)) None None None)) ;;;
     cm_add_message (cid_of conversation_id) "assistant" answer
       (Some (mkMeta None (Some sources) None None))) ;;;
  ret (mkQueryResult answer sources "rag"
         (Some (if use_mmr then "mmr" else "similarity"))
         (Some (use_rerank && reranker self))
         (resp_total_tokens response))
  end
  end.

Definition _answer_with_web_search (self : system) (question : string)
    (conversation_id : option string) (eco_mode : bool) : M query_result :=
  match web_search self with
  | None => raise AttributeError
  | Some self_max_results =>
  let search_results := WebSearch.search ddgs_text self_max_results question (Some 3%nat) in
  match search_results with
  | [] =>
      ret (mkQueryResult "I couldn't find relevant information on the web."
             [] "web_search" None None 0)
  | _ :: _ =>
  let context := WebSearch.format_results_for_context search_results in
  db <- get_redis ;;
  let messages :=
    if has_history self conversation_id
    then format_for_llm db (cid_of conversation_id) 2 false
    else [] in
  let system_prompt :=
    "You are a helpful AI assistant. Answer based on the web search results provided."
    +:+ (if eco_mode then " Be concise and direct." else "") in
  let messages := mkChat "system" system_prompt :: messages in
  let user_prompt :=
    context +:+ nl +:+ nl +:+ "Question: " +:+ question +:+ nl +:+ nl
    +:+ "Answer based on the web search results above." in
  let messages := messages ++ [mkChat "user" user_prompt] in
  response <- llm_create (llm_model self) messages (3 # 10) ;;
  let answer := resp_content response in
  let sources :=
    imap (fun i result =>
            mkSource (Py.str_take 200 (WebSearch.snippet result) +:+ "...")
                     (Some (JStr "Web Search"))
                     (Some (JStr (WebSearch.title result)))
                     (1 - inject_Z (Z.of_nat i) * (1 # 10))
                     (Some (WebSearch.link result)))
         search_results in
  when (has_history self conversation_id)
    (cm_add_message (cid_of conversation_id) "user" question
       (Some (mkMeta None None (Some true) None)) ;;;
     cm_add_message (cid_of conversation_id) "assistant" answer
       (Some (mkMeta None (Some sources) None (Some true)))) ;;;
  ret (mkQueryResult answer sources "web_search" None None (resp_total_tokens response))
  end
  end.

Definition query (self : system) (question : string) (conversation_id : option string)
    (k : nat) (use_mmr use_rerank eco_mode : bool) (filter_document : option string)
    : M query_result :=
  let tool := _route_to_tool str_lower question in
  if bool_decide (tool = "direct_llm")
  then _answer_directly self question conversation_id eco_mode
  else if bool_decide (tool = "web_search")
  then _answer_with_web_search self question conversation_id eco_mode
  else if bool_decide (tool = "rag")
  then _answer_with_rag self question conversation_id k use_mmr use_rerank eco_mode
         filter_document
  else _answer_with_rag self question conversation_id k use_mmr use_rerank eco_mode
         filter_document.

End Orchestrator.

End RAG.

(** ** Vocabulary of the specification *)

Module Spec.
Import VectorStore.

(** The diversity proxy, on the two contents. *)
Definition diversity_proxy (candidateContent selectedContent : string) : Q :=
  1 / (1 + Qabs (inject_Z (Z.of_nat (String.length candidateContent))
                 - inject_Z (Z.of_nat (String.length selectedContent))) / 100).

(** [m] is the maximum of the proxy over the already selected items. *)
Definition maxSimilarityToSelected (selected : list srow) (candidate : srow) (m : Q)
    : Prop :=
  (exists s, In s selected /\ m == diversity_proxy (content candidate) (content s))
  /\ (forall s, In s selected -> diversity_proxy (content candidate) (content s) <= m).

(** [v] is the candidate's MMR score against the selected items. *)
Definition mmrScore (lambda : Q) (selected : list srow) (candidate : srow) (v : Q)
    : Prop :=
  exists m, maxSimilarityToSelected selected candidate m
            /\ v == lambda * similarity candidate - (1 - lambda) * m.

(** [best] has the highest score of [pre ++ best :: post] and is the first
    such candidate. *)
Definition first_highest (score : srow -> Q) (pre : list srow) (best : srow)
    (post : list srow) : Prop :=
  Forall (fun c => score c < score best) pre
  /\ Forall (fun c => score c <= score best) post.

(** The greedy selection: from [selected] and the unselected [remaining]
    to the final selection. *)
Inductive greedy (k : nat) (lambda : Q) : list srow -> list srow -> list srow -> Prop :=
| greedy_done selected remaining :
    (k <= length selected)%nat \/ remaining = [] ->
    greedy k lambda selected remaining selected
| greedy_pick selected pre best post final score :
    (length selected < k)%nat ->
    (forall c, In c (pre ++ best :: post) -> mmrScore lambda selected c (score c)) ->
    first_highest score pre best post ->
    greedy k lambda (selected ++ [best]) (pre ++ post) final ->
    greedy k lambda selected (pre ++ best :: post) final.

(** [a] and [b] are the same character, or the capital and the small
    form of one of the 26 letters ([A] is 65, [a] is 97). *)
Definition same_letter (a b : ascii) : Prop :=
  a = b
  \/ exists i, (i < 26)%nat
       /\ ((a = ascii_of_nat (65 + i) /\ b = ascii_of_nat (97 + i))
           \/ (a = ascii_of_nat (97 + i) /\ b = ascii_of_nat (65 + i))).

(** Two texts that differ in letter case at most. *)
Fixpoint same_text (s t : string) : Prop :=
  match s, t with
  | EmptyString, EmptyString => True
  | String a s', String b t' => same_letter a b /\ same_text s' t'
  | _, _ => False
  end.

(** [kw] occurs in [question] as a substring, letter case ignored. *)
Definition occurs_in (kw question : string) : Prop :=
  exists pre w post, question = pre +:+ w +:+ post /\ same_text w kw.

(** Some keyword of the category occurs in the question. *)
Definition matches (keywords : list string) (question : string) : Prop :=
  exists kw, In kw keywords /\ occurs_in kw question.

(** The two messages of one exchange, the question and then the answer,
    are appended to the conversation. *)
Definition appended (now : nat) (conversation_id question answer : string)
    (before after : Conversation.redis_t) : Prop :=
  exists user_meta assistant_meta,
    after = Conversation.add_message now conversation_id "assistant" answer assistant_meta
              (Conversation.add_message now conversation_id "user" question user_meta
                 before).

(** What answering one question does to the conversation store: nothing
    when an exception is raised; nothing, and no call of the LLM, on an
    early return; and after an answer of the LLM the exchange is appended
    when a conversation id and a store are available. *)
Definition persistence (chat_completion : RAG.llm_request -> option RAG.llm_response)
    (self : RAG.system) (conversation_id : option string) (question : string)
    (w : RAG.world) (out : RAG.exn + RAG.query_result) (w' : RAG.world) : Prop :=
  match out with
  | inl _ => RAG.redis w' = RAG.redis w
  | inr r =>
      (w' = w /\ RAG.sources r = [] /\ RAG.num_tokens r = O)
      \/ (exists request,
            RAG.llm_calls w' = RAG.llm_calls w ++ [request]
            /\ chat_completion request
               = Some (RAG.mkResponse (RAG.answer r) (RAG.num_tokens r))
            /\ if RAG.has_history self conversation_id
               then appended (RAG.utcnow w) (RAG.cid_of conversation_id) question
                             (RAG.answer r) (RAG.redis w) (RAG.redis w')
               else RAG.redis w' = RAG.redis w)
  end.

(** Scores in descending order, ties excluded or allowed. *)
Definition strictly_descending {A : Type} (l : list (A * Q)) : Prop :=
  Sorted (fun a b => b.2 < a.2) l.

Definition descending {A : Type} (l : list (A * Q)) : Prop :=
  Sorted (fun a b => b.2 <= a.2) l.

(** The result dict without its [similarity] key. *)
Definition chunk_of (d : doc) : doc :=
  mkDoc (doc_id d) (doc_content d) (doc_metadata d) None.

End Spec.

(** ** Fixtures for the closed examples *)

Module Fixtures.
Import VectorStore.

(** Cosine distance on vectors of norm one: [1 - a . b]. *)
Definition unit_cosine_distance (a b : vector) : Q :=
  1 - fold_right Qplus 0 (zip_with Qmult a b).

Definition file (f : string) : metadata_t := {[ "filename" := JStr f ]}.

Definition row1 : row := mkRow 1 "aaaa" (file "a.pdf") [1; 0].
Definition row2 : row := mkRow 2 "bbbbbbbb" (file "b.pdf") [0; 1].
Definition row3 : row := mkRow 3 "cc" (file "a.pdf") [3 # 5; 4 # 5].
Definition row4 : row := mkRow 4 "aaaa" (file "a.pdf") [1; 0].

(** Four chunks; the first and the last have the same content and the
    same embedding (the store does not deduplicate). *)
Definition table4 : list row := [row1; row2; row3; row4].

(** The candidates fetched from [table4] for the query [[1; 0]]. *)
Definition first4 : srow := select_list unit_cosine_distance [1; 0] row1.
Definition rest4 : list srow :=
  map (select_list unit_cosine_distance [1; 0]) [row4; row3; row2].

(** A stand-in cross-encoder: the length of the passage. *)
Definition length_encoder (query passage : string) : Q :=
  inject_Z (Z.of_nat (String.length passage)).

(** Two retrieved chunks with the same content. *)
Definition twins : list (doc * Q) :=
  [ (mkDoc 1 "aaaa" (file "a.pdf") None, 9 # 10);
    (mkDoc 4 "aaaa" (file "a.pdf") None, 8 # 10) ].

(** A scan of the whole table, and an index that probes the list around
    the first axis only. *)
Definition seq_scan (table : list row) (q : vector) (r : row) : bool := true.

Definition first_axis_list (table : list row) (q : vector) (r : row) : bool :=
  match row_embedding r with
  | x :: _ => Qle_bool (1 # 2) x
  | [] => false
  end.

(** Stand-ins for the external services; [lower] is [str.lower] on ASCII
    text. *)
Definition lower (s : string) : string := Py.ascii_lower s.

Definition embed_axis (text : string) : vector := [1; 0].

Definition echo_llm (request : RAG.llm_request) : option RAG.llm_response :=
  Some (RAG.mkResponse "ok" 42).

Definition failing_llm (request : RAG.llm_request) : option RAG.llm_response := None.

Definition no_hits (query : string) (n : nat) : option (list WebSearch.ddg_hit) :=
  Some [].

Definition one_hit (query : string) (n : nat) : option (list WebSearch.ddg_hit) :=
  Some [WebSearch.mkHit (Some "Forecast") (Some "Sunny.") (Some "https://example.org")].

Definition two_decimals (x : Q) : string := "1.00".

(** A system with every optional component, and one without a reranker. *)
Definition full_system : RAG.system := RAG.mkSystem true true "gpt-3.5-turbo" (Some 3%nat).
Definition bare_system : RAG.system := RAG.mkSystem true false "gpt-3.5-turbo" (Some 3%nat).

Definition world0 : RAG.world := RAG.mkWorld ∅ [] 0.

End Fixtures.

(** ** vector_store.py: maintenance operations *)

Module StoreOps.
Import VectorStore.

(** A chunk handed to [insert_chunks]: the keys [content], [metadata]
    and [embedding]. *)
Record chunk : Type := mkChunk {
  chunk_content : string;
  chunk_metadata : metadata_t;
  chunk_embedding : vector
}.

(** A text parameter must not hold the character NUL, and [jsonb] takes
    no [\u0000] in a key or a string. *)
Definition nul_free (s : string) : bool :=
  forallb (fun c => negb (Ascii.eqb c zero)) (list_ascii_of_string s).

Definition json_nul_free (md : metadata_t) : bool :=
  forallb (fun kv => nul_free kv.1
                     && match kv.2 with
                        | JStr s => nul_free s
                        | JInt _ => true
                        end)
          (map_to_list md).

(** [metadata->>key]: the value as text, [None] for SQL [NULL]. *)
Definition json_text (v : jscalar) : string :=
  match v with
  | JStr s => s
  | JInt z => pretty z
  end.

Definition get_text (md : metadata_t) (key : string) : option string :=
  json_text <$> md !! key.

Section Inserts.

(** The column default [gen_random_uuid()], as the id drawn for a row
    added to the given table. *)
Variable gen_random_uuid : list row -> N.

(** The [for chunk in chunks: cur.execute(INSERT ...)] loop inside the
    transaction.  An [INSERT] raises on a NUL character in the content or
    the metadata, on a vector of the wrong dimension for the [vector(n)]
    column, and on a duplicate primary key. *)
Fixpoint insert_rows (vector_size : nat) (chunks : list chunk) (table : list row)
    : db_error + list row :=
  match chunks with
  | [] => inr table
  | chunk :: chunks' =>
      if nul_free (chunk_content chunk) && json_nul_free (chunk_metadata chunk)
         && bool_decide (length (chunk_embedding chunk) = vector_size)
      then
        let new_id := gen_random_uuid table in
        if bool_decide (new_id ∈ map row_id table) then inl UniqueViolation
        else insert_rows vector_size chunks'
               (table ++ [mkRow new_id (chunk_content chunk) (chunk_metadata chunk)
                                (chunk_embedding chunk)])
      else inl DataException
  end.

(** [insert_chunks]: the outcome and the table afterwards; an exception
    leaves the [with] block before [commit], so nothing is kept. *)
Definition insert_chunks (vector_size : nat) (chunks : list chunk) (table : list row)
    : (db_error + nat) * list row :=
  match insert_rows vector_size chunks table with
  | inr table' => (inr (length chunks), table')
  | inl e => (inl e, table)
  end.

End Inserts.

(** The rows of a document: [metadata->>'filename' = filename]. *)
Definition of_document (filename : string) (r : row) : Prop :=
  get_text (row_metadata r) "filename" = Some filename.

#[global] Instance of_document_dec (filename : string) (r : row) :
  Decision (of_document filename r).
Proof. unfold of_document. apply _. Defined.

(** [if filename:] is false for [None] and for the empty string. *)
Definition count_chunks (filename : option string) (table : list row) : nat :=
  match filename with
  | Some f =>
      if bool_decide (f = "") then length table
      else length (filter (of_document f) table)
  | None => length table
  end.

Section Collation.

(** The order of [ORDER BY filename] on text (the database collation). *)
Variable collate_le : string -> string -> bool.

(** Ascending, [NULL] last. *)
Definition filename_before (a b : option string) : bool :=
  match a, b with
  | Some x, Some y => collate_le x y
  | Some _, None => true
  | None, Some _ => false
  | None, None => true
  end.

(** [SELECT DISTINCT metadata->>'filename' ... ORDER BY filename], then
    the comprehension's [if row["filename"]]. *)
Definition get_all_documents (table : list row) : list string :=
  let filenames :=
    Py.stable_sort filename_before
      (remove_dups (map (fun r => get_text (row_metadata r) "filename") table)) in
  omap (fun f => match f with
                 | Some s => if bool_decide (s = "") then None else Some s
                 | None => None
                 end)
       filenames.

End Collation.

(** [delete_document]: [cur.rowcount] and the table afterwards. *)
Definition delete_document (filename : string) (table : list row) : nat * list row :=
  (length (filter (of_document filename) table),
   filter (fun r => ~ of_document filename r) table).

End StoreOps.

(** ** conversation.py: clearing and listing *)

Module ConversationOps.
Import Conversation.

(** [self.client.delete(key)]. *)
Definition clear_history (conversation_id : string) (db : redis_t) : redis_t :=
  delete (key_of conversation_id) db.

(** [s.replace(old, new)] for a non-empty [old]: a left-to-right scan;
    an occurrence is replaced and the scan resumes behind it ([skip]
    counts the characters of the occurrence still to pass). *)
Fixpoint replace_from (old new : string) (skip : nat) (s : string) : string :=
  match s with
  | EmptyString => EmptyString
  | String c s' =>
      match skip with
      | S n => replace_from old new n s'
      | O =>
          if Py.startswith s old
          then new +:+ replace_from old new (String.length old - 1) s'
          else String c (replace_from old new 0 s')
      end
  end.

(** For the empty [old], [new] goes before every character and at the end. *)
Fixpoint interleave (new s : string) : string :=
  match s with
  | EmptyString => new
  | String c s' => new +:+ String c (interleave new s')
  end.

Definition replace (s old new : string) : string :=
  if bool_decide (old = "") then interleave new s else replace_from old new 0 s.

(** [self.client.keys("conversation:*")]: the keys with that prefix, in
    the order the server reports them. *)
Definition keys (db : redis_t) : list string :=
  filter (fun k => Py.startswith k "conversation:" = true) (map fst (map_to_list db)).

Definition list_conversations (db : redis_t) : list string :=
  map (fun k => replace k "conversation:" "") (keys db).

End ConversationOps.

(** ** document_processor.py: chunking *)

Module DocumentProcessor.

(** An entry of [doc_data["sections"]] (its [level] is not read by
    [chunk_document]). *)
Record section : Type := mkSection { sec_type : string; sec_text : string }.

(** The metadata of a chunk. *)
Record chunk_metadata : Type := mkChunkMetadata {
  cm_filename : string;
  cm_title : string;
  cm_section : option string;
  cm_subsection : option string;
  cm_types : list string;
  cm_chunk_index : nat
}.

Record chunk : Type := mkChunk { content : string; metadata : chunk_metadata }.

(** [str.isspace] on ASCII characters. *)
Definition is_space (c : ascii) : bool :=
  let n := nat_of_ascii c in
  ((9 <=? n)%nat && (n <=? 13)%nat) || ((28 <=? n)%nat && (n <=? 32)%nat).

Fixpoint lstrip (s : string) : string :=
  match s with
  | EmptyString => EmptyString
  | String c s' => if is_space c then lstrip s' else s
  end.

Fixpoint rstrip (s : string) : string :=
  match s with
  | EmptyString => EmptyString
  | String c s' =>
      match rstrip s' with
      | EmptyString => if is_space c then EmptyString else String c EmptyString
      | r => String c r
      end
  end.

(** [s.strip()]. *)
Definition strip (s : string) : string := rstrip (lstrip s).

(** The loop variables of [chunk_document]: the chunks so far, the text
    being collected, and the section, subsection and types of
    [current_chunk_metadata]. *)
Record state : Type := mkState {
  chunks_so_far : list chunk;
  current_chunk_text : string;
  current_section : option string;
  current_subsection : option string;
  current_types : list string
}.

Section Chunking.

(** [doc_data["metadata"]["filename"]], [doc_data["metadata"]["title"]]
    and [self.chunk_size]. *)
Variable filename title : string.
Variable chunk_size : Z.

(** The chunk made of the collected text. *)
Definition emit (st : state) (text : string) (sec subsec : option string)
    (types : list string) : chunk :=
  mkChunk (strip text)
          (mkChunkMetadata filename title sec subsec types (length (chunks_so_far st))).

(** One round of [for section in doc_data["sections"]]. *)
Definition step (st : state) (s : section) : state :=
  let '(sec, subsec) :=
    if bool_decide (sec_type s ∈ ["section_header"; "heading"; "title"; "h1"])
    then (Some (sec_text s), None)
    else if bool_decide (sec_type s ∈ ["h2"; "h3"; "subtitle"])
    then (current_section st, Some (sec_text s))
    else (current_section st, current_subsection st) in
  let text :=
    if bool_decide (current_chunk_text st = "") then sec_text s
    else current_chunk_text st +:+ WebSearch.nl +:+ WebSearch.nl +:+ sec_text s in
  let types := current_types st ++ [sec_type s] in
  if (chunk_size <=? Z.of_nat (String.length text))%Z
  then mkState (chunks_so_far st ++ [emit st text sec subsec types]) "" sec subsec []
  else mkState (chunks_so_far st) text sec subsec types.

Definition chunk_document (sections : list section) : list chunk :=
  let st := fold_left step sections (mkState [] "" None None []) in
  if bool_decide (strip (current_chunk_text st) = "") then chunks_so_far st
  else chunks_so_far st
       ++ [emit st (current_chunk_text st) (current_section st) (current_subsection st)
             (current_types st)].

End Chunking.

End DocumentProcessor.

(** ** Further fixtures *)

Module FixturesMore.
Import VectorStore Fixtures.

(** An id generator that never collides: one above the largest id. *)
Definition next_id (table : list row) : N :=
  N.succ (foldr N.max 0%N (map row_id table)).

Definition chunk_c : StoreOps.chunk := StoreOps.mkChunk "new text" (file "c.pdf") [0; 1].
Definition chunk_short : StoreOps.chunk := StoreOps.mkChunk "short" (file "c.pdf") [1].

(** A document of a title, a paragraph and a subsection. *)
Definition sections3 : list DocumentProcessor.section :=
  [ DocumentProcessor.mkSection "title" "Deep Learning";
    DocumentProcessor.mkSection "text" "Neural networks learn representations.";
    DocumentProcessor.mkSection "h2" "Layers" ].

End FixturesMore.


(** * Properties *)

(** ** Python built-ins *)

Section PyFacts.
Import Py.

Lemma Qgtb_true (x y : Q) : Qgtb x y = true <-> y < x.
Proof.
  unfold Qgtb. rewrite negb_true_iff. split.
  - intros H. apply Qnot_le_lt. intros Hle. apply Qle_bool_iff in Hle. congruence.
  - intros H. destruct (Qle_bool x y) eqn:E; [|reflexivity].
    apply Qle_bool_iff in E. exfalso. exact (Qlt_not_le _ _ H E).
Qed.

Lemma Qgtb_false (x y : Q) : Qgtb x y = false <-> x <= y.
Proof.
  unfold Qgtb. rewrite negb_false_iff. apply Qle_bool_iff.
Qed.

Lemma Qle_bool_false (x y : Q) : Qle_bool x y = false -> y < x.
Proof.
  intros H. apply Qnot_le_lt. intros Hle. apply Qle_bool_iff in Hle. congruence.
Qed.

Lemma max2_upper (a b : Q) : a <= max2 a b /\ b <= max2 a b.
Proof.
  unfold max2. destruct (Qgtb b a) eqn:E.
  - apply Qgtb_true in E. split; [apply Qlt_le_weak, E | apply Qle_refl].
  - apply Qgtb_false in E. split; [apply Qle_refl | exact E].
Qed.

Lemma max2_cases (a b : Q) : max2 a b = a \/ max2 a b = b.
Proof. unfold max2. destruct (Qgtb b a); auto. Qed.

(** [max_from]: either the initial best survives and bounds the list, or
    the result sits in the list, strictly above everything before it. *)
Lemma max_from_spec {A : Type} (key : A -> Q) (xs : list A) (best : A) :
  (max_from key best xs = best /\ Forall (fun x => key x <= key best) xs)
  \/ exists pre post,
       xs = pre ++ max_from key best xs :: post
       /\ key best < key (max_from key best xs)
       /\ Forall (fun x => key x < key (max_from key best xs)) pre
       /\ Forall (fun x => key x <= key (max_from key best xs)) post.
Proof.
  revert best. induction xs as [|x xs IH]; intros best; simpl.
  - left. split; [reflexivity | constructor].
  - destruct (Qgtb (key x) (key best)) eqn:E.
    + apply Qgtb_true in E.
      destruct (IH x) as [[Heq Hall] | (pre & post & Hxs & Hlt & Hpre & Hpost)].
      * right. exists [], xs. rewrite Heq. simpl. repeat split; auto.
      * right. exists (x :: pre), post. repeat split.
        -- simpl. f_equal. exact Hxs.
        -- eapply Qlt_trans; eassumption.
        -- constructor; assumption.
        -- assumption.
    + apply Qgtb_false in E.
      destruct (IH best) as [[Heq Hall] | (pre & post & Hxs & Hlt & Hpre & Hpost)].
      * left. split; [exact Heq | constructor; assumption].
      * right. exists (x :: pre), post. repeat split.
        -- simpl. f_equal. exact Hxs.
        -- assumption.
        -- constructor; [eapply Qle_lt_trans; eassumption | assumption].
        -- assumption.
Qed.

(** [max(xs, key)] on a non-empty list: the first element of highest key. *)
Lemma max_by_first_highest {A : Type} (key : A -> Q) (x : A) (xs : list A) :
  exists pre post,
    x :: xs = pre ++ max_from key x xs :: post
    /\ Forall (fun c => key c < key (max_from key x xs)) pre
    /\ Forall (fun c => key c <= key (max_from key x xs)) post.
Proof.
  destruct (max_from_spec key xs x) as [[Heq Hall] | (pre & post & Hxs & Hlt & Hpre & Hpost)].
  - exists [], xs. rewrite Heq. simpl. auto.
  - exists (x :: pre), post. repeat split.
    + simpl. f_equal. exact Hxs.
    + constructor; assumption.
    + assumption.
Qed.

(** The scored pairs [(candidate, score)] are compared on their score. *)
Lemma max_from_scored {A : Type} (f : A -> Q) (xs : list A) (best : A) :
  max_from snd (best, f best) (map (fun c => (c, f c)) xs)
  = (max_from f best xs, f (max_from f best xs)).
Proof.
  revert best. induction xs as [|x xs IH]; intros best; simpl; [reflexivity|].
  destruct (Qgtb (f x) (f best)); apply IH.
Qed.

(** [remove] takes out the first occurrence, when nothing equal precedes it. *)
Lemma remove_middle {A : Type} (eqb : A -> A -> bool) (v : A) (pre post : list A) :
  eqb v v = true ->
  Forall (fun x => eqb x v = false) pre ->
  remove eqb v (pre ++ v :: post) = pre ++ post.
Proof.
  intros Hrefl Hpre. induction Hpre as [|x pre Hx Hpre IH]; simpl.
  - rewrite Hrefl. reflexivity.
  - rewrite Hx. f_equal. exact IH.
Qed.

End PyFacts.

(** ** The MMR score *)

Section ScoreFacts.
Import VectorStore.

Lemma srow_eqb_refl (a : srow) : srow_eqb a a = true.
Proof.
  unfold srow_eqb. rewrite !bool_decide_eq_true_2 by reflexivity.
  simpl. apply Qeq_bool_refl.
Qed.

Lemma srow_eqb_true (a b : srow) :
  srow_eqb a b = true -> content a = content b /\ similarity a == similarity b.
Proof.
  unfold srow_eqb. rewrite !andb_true_iff, !bool_decide_eq_true, Qeq_bool_iff. tauto.
Qed.

Lemma length_similarity_proxy (c s : srow) :
  length_similarity c s == Spec.diversity_proxy (content c) (content s).
Proof.
  unfold length_similarity, Spec.diversity_proxy, len_diff.
  assert (H : inject_Z (Z.abs (Z.of_nat (String.length (content c))
                               - Z.of_nat (String.length (content s))))
              == Qabs (inject_Z (Z.of_nat (String.length (content c)))
                       - inject_Z (Z.of_nat (String.length (content s))))).
  { unfold Qminus. rewrite <- inject_Z_opp, <- inject_Z_plus. reflexivity. }
  rewrite H. reflexivity.
Qed.

Lemma length_similarity_pos (c s : srow) : 0 < length_similarity c s.
Proof.
  unfold length_similarity, Qdiv. rewrite Qmult_1_l.
  apply Qinv_lt_0_compat.
  assert (H : 0 <= inject_Z (len_diff c s) * / 100).
  { apply Qmult_le_0_compat; [|discriminate].
    change 0 with (inject_Z 0). rewrite <- Zle_Qle. unfold len_diff. lia. }
  apply Qlt_le_trans with (y := 1 + 0); [reflexivity|].
  apply Qplus_le_r. exact H.
Qed.

(** The running maximum bounds its start and every proxy seen, and is one
    of them. *)
Lemma fold_max2_spec (c : srow) (selected : list srow) (acc : Q) :
  let m := fold_left (fun a s => Py.max2 a (length_similarity c s)) selected acc in
  acc <= m
  /\ Forall (fun s => length_similarity c s <= m) selected
  /\ (m = acc \/ exists s, In s selected /\ m = length_similarity c s).
Proof.
  revert acc. induction selected as [|s selected IH]; intros acc; simpl.
  - split; [apply Qle_refl|]. split; [constructor | left; reflexivity].
  - destruct (IH (Py.max2 acc (length_similarity c s))) as (Hacc & Hall & Hin).
    destruct (max2_upper acc (length_similarity c s)) as [Ha Hb].
    split; [eapply Qle_trans; eassumption|].
    split; [constructor; [eapply Qle_trans; eassumption | exact Hall]|].
    destruct Hin as [Heq | (s' & Hs' & Heq)].
    + destruct (max2_cases acc (length_similarity c s)) as [E | E].
      * left. congruence.
      * right. exists s. split; [left; reflexivity | congruence].
    + right. exists s'. split; [right; exact Hs' | exact Heq].
Qed.

(** The inner loop computes the maximum of the proxy over [selected]. *)
Lemma max_sim_to_selected_spec (c : srow) (selected : list srow) :
  selected <> [] ->
  Spec.maxSimilarityToSelected selected c (max_sim_to_selected c selected).
Proof.
  intros Hne. unfold max_sim_to_selected.
  destruct (fold_max2_spec c selected 0) as (Hacc & Hall & Hin).
  split.
  - destruct Hin as [Heq | (s & Hs & Heq)].
    + destruct selected as [|s selected]; [congruence|].
      apply Forall_inv in Hall. exfalso.
      apply (Qlt_not_le _ _ (length_similarity_pos c s)).
      rewrite Heq in Hall. exact Hall.
    + exists s. split; [exact Hs|]. rewrite Heq. apply length_similarity_proxy.
  - intros s Hs. rewrite <- length_similarity_proxy.
    rewrite Forall_forall in Hall. apply Hall. apply list_elem_of_In. exact Hs.
Qed.

Lemma mmr_score_spec (lambda : Q) (selected : list srow) (c : srow) :
  selected <> [] -> Spec.mmrScore lambda selected c (mmr_score lambda selected c).
Proof.
  intros Hne. exists (max_sim_to_selected c selected).
  split; [apply max_sim_to_selected_spec, Hne | reflexivity].
Qed.

(** The score depends on the candidate through its content and similarity. *)
Lemma max_sim_to_selected_content (a b : srow) (selected : list srow) :
  content a = content b -> max_sim_to_selected a selected = max_sim_to_selected b selected.
Proof.
  intros H. unfold max_sim_to_selected.
  assert (E : forall acc,
             fold_left (fun m s => Py.max2 m (length_similarity a s)) selected acc
             = fold_left (fun m s => Py.max2 m (length_similarity b s)) selected acc).
  { induction selected as [|s selected IH]; intros acc; simpl; [reflexivity|].
    unfold length_similarity at 2 4, len_diff. rewrite H. apply IH. }
  apply E.
Qed.

Lemma mmr_score_eqb (lambda : Q) (selected : list srow) (a b : srow) :
  srow_eqb a b = true -> mmr_score lambda selected a == mmr_score lambda selected b.
Proof.
  intros H. apply srow_eqb_true in H as [Hc Hs]. unfold mmr_score.
  rewrite (max_sim_to_selected_content a b selected Hc), Hs. reflexivity.
Qed.

End ScoreFacts.

(** ** Sorting *)

Section SortFacts.
Import Py.
Context {A : Type} (before : A -> A -> bool) (R : A -> A -> Prop).
Hypothesis before_R : forall x y, before x y = true -> R x y.
Hypothesis not_before_R : forall x y, before x y = false -> R y x.
Hypothesis R_trans : forall x y z, R x y -> R y z -> R x z.

Lemma insert_by_Permutation (x : A) (l : list A) : insert_by before x l ≡ₚ x :: l.
Proof.
  induction l as [|y l IH]; simpl; [reflexivity|].
  destruct (before x y); [reflexivity|].
  rewrite IH. apply Permutation_swap.
Qed.

Lemma stable_sort_Permutation (l : list A) : stable_sort before l ≡ₚ l.
Proof.
  induction l as [|x l IH]; simpl; [reflexivity|].
  rewrite insert_by_Permutation, IH. reflexivity.
Qed.

Lemma stable_sort_length (l : list A) : length (stable_sort before l) = length l.
Proof. apply Permutation_length, stable_sort_Permutation. Qed.

Lemma insert_by_sorted (x : A) (l : list A) :
  StronglySorted R l -> StronglySorted R (insert_by before x l).
Proof using before_R not_before_R R_trans.
  induction 1 as [|y l Hl IH Hy]; simpl.
  - repeat constructor.
  - destruct (before x y) eqn:E.
    + constructor; [constructor; assumption|].
      constructor; [apply before_R, E|].
      eapply Forall_impl; [exact Hy|]. intros z Hz.
      eapply R_trans; [apply before_R, E | exact Hz].
    + constructor; [exact IH|].
      rewrite insert_by_Permutation. constructor; [apply not_before_R, E | exact Hy].
Qed.

Lemma stable_sort_sorted (l : list A) : StronglySorted R (stable_sort before l).
Proof using before_R not_before_R R_trans.
  induction l as [|x l IH]; simpl; [constructor | apply insert_by_sorted, IH].
Qed.

End SortFacts.

Lemma StronglySorted_take {A : Type} (R : A -> A -> Prop) (n : nat) (l : list A) :
  StronglySorted R l -> StronglySorted R (take n l).
Proof.
  intros H. revert n. induction H as [|x l Hl IH Hx]; intros [|n]; simpl;
    try constructor.
  - apply IH.
  - rewrite Forall_forall in Hx |- *. intros y Hy. apply Hx.
    exact (subseteq_take n l y Hy).
Qed.

Lemma StronglySorted_map {A B : Type} (R : B -> B -> Prop) (f : A -> B) (l : list A) :
  StronglySorted (fun a b => R (f a) (f b)) l -> StronglySorted R (map f l).
Proof.
  induction 1 as [|x l Hl IH Hx]; simpl; [constructor|].
  constructor; [exact IH|]. apply List.Forall_map. exact Hx.
Qed.

(** ** The vector store *)

Section StoreFacts.
Import VectorStore.
Variable cosine_distance : vector -> vector -> Q.
Variable probed : list row -> vector -> row -> bool.

(** Without a filter the fetch is the statement without [WHERE] clause,
    the query vector at both vector placeholders. *)
Lemma fetch_no_filter (table : list row) (q : vector) (n : nat)
    (flt : option metadata_t) :
  filter_given flt = false ->
  fetch cosine_distance probed table q n flt
  = inr (select_similar cosine_distance probed table q None q n).
Proof. intros H. unfold fetch. rewrite H. reflexivity. Qed.

(** With a filter the first parameter, the filter, meets the first
    placeholder, a vector: the call raises. *)
Lemma fetch_filter (table : list row) (q : vector) (n : nat) (flt : option metadata_t) :
  filter_given flt = true ->
  fetch cosine_distance probed table q n flt = inl BadParameter.
Proof. intros H. unfold fetch. rewrite H. reflexivity. Qed.

Lemma fetch_inr (table : list row) (q : vector) (n : nat) (flt : option metadata_t)
    (candidates : list srow) :
  fetch cosine_distance probed table q n flt = inr candidates ->
  filter_given flt = false
  /\ candidates = select_similar cosine_distance probed table q None q n.
Proof.
  destruct (filter_given flt) eqn:E.
  - rewrite fetch_filter by exact E. discriminate.
  - rewrite fetch_no_filter by exact E. intros [= <-]. auto.
Qed.

(** The fetched candidates come in descending similarity. *)
Lemma select_similar_sorted (table : list row) (q : vector) (n : nat)
    (flt : option metadata_t) :
  StronglySorted (fun a b => similarity b <= similarity a)
                 (select_similar cosine_distance probed table q flt q n).
Proof.
  unfold select_similar. apply StronglySorted_map. simpl.
  apply StronglySorted_take. unfold order_by.
  apply stable_sort_sorted.
  - intros x y H. apply Qle_bool_iff in H. lra.
  - intros x y H. apply Qle_bool_false in H. lra.
  - intros x y z H1 H2. lra.
Qed.

(** The loop ends within [length remaining] rounds, and what it selects is
    a greedy selection. *)
Lemma mmr_loop_greedy (fuel k : nat) (lambda : Q) (selected remaining : list srow) :
  selected <> [] ->
  (length remaining <= fuel)%nat ->
  exists final,
    mmr_loop fuel k lambda selected remaining = Some final
    /\ Spec.greedy k lambda selected remaining final.
Proof.
  revert selected remaining.
  induction fuel as [|fuel IH]; intros selected remaining Hne Hfuel.
  - destruct remaining; [|simpl in Hfuel; lia].
    exists selected. split.
    + simpl. rewrite andb_false_r. reflexivity.
    + apply Spec.greedy_done. right. reflexivity.
  - cbn [mmr_loop].
    destruct ((length selected <? k)%nat && negb (bool_decide (remaining = []))) eqn:C.
    2:{ exists selected. split; [reflexivity|]. apply Spec.greedy_done.
        apply andb_false_iff in C as [C | C].
        - left. apply Nat.ltb_ge in C. exact C.
        - right. apply negb_false_iff, bool_decide_eq_true in C. exact C. }
    apply andb_true_iff in C as [Ck Cr]. apply Nat.ltb_lt in Ck.
    destruct remaining as [|r rs]; [discriminate|].
    unfold mmr_scores. cbn [map Py.max_by].
    rewrite (max_from_scored (mmr_score lambda selected) rs r).
    destruct (max_by_first_highest (mmr_score lambda selected) r rs)
      as (pre & post & Hsplit & Hpre & Hpost).
    set (best := Py.max_from (mmr_score lambda selected) r rs) in *.
    rewrite Hsplit.
    rewrite remove_middle.
    + destruct (IH (selected ++ [best]) (pre ++ post)) as (final & Hrun & Hgreedy).
      * destruct selected; discriminate.
      * apply (f_equal length) in Hsplit. rewrite length_app in *. simpl in *. lia.
      * exists final. split; [exact Hrun|].
        eapply Spec.greedy_pick with (score := mmr_score lambda selected); eauto.
        -- intros c _. apply mmr_score_spec, Hne.
        -- split; assumption.
    + apply srow_eqb_refl.
    + eapply Forall_impl; [exact Hpre|]. intros c Hc. simpl in Hc.
      destruct (srow_eqb c best) eqn:E; [|reflexivity].
      apply (mmr_score_eqb lambda selected) in E. lra.
Qed.

(** A greedy selection extends [selected] by distinct positions of
    [remaining], up to [k] items. *)
Lemma greedy_selection (k : nat) (lambda : Q) (selected remaining final : list srow) :
  Spec.greedy k lambda selected remaining final ->
  exists picked,
    final = selected ++ picked
    /\ picked ⊆+ remaining
    /\ (length final <= Nat.max k (length selected))%nat.
Proof.
  induction 1 as [selected remaining _ | selected pre best post final score Hk _ _ _ IH].
  - exists []. rewrite app_nil_r. split; [reflexivity|].
    split; [apply submseteq_nil_l | lia].
  - destruct IH as (picked & -> & Hsub & Hlen).
    exists (best :: picked). rewrite <- app_assoc. split; [reflexivity|].
    split; [apply submseteq_cons_middle, Hsub|].
    rewrite !length_app in *. simpl in *. lia.
Qed.

Lemma NoDup_map_submseteq {A B : Type} (f : A -> B) (l1 l2 : list A) :
  l1 ⊆+ l2 -> NoDup (map f l2) -> NoDup (map f l1).
Proof.
  intros [rest Hrest]%submseteq_Permutation Hnd.
  change (NoDup (f <$> l1)). change (NoDup (f <$> l2)) in Hnd.
  rewrite Hrest, fmap_app in Hnd. apply NoDup_app in Hnd as [Hnd _]. exact Hnd.
Qed.

Lemma select_similar_rows (table : list row) (q : vector) (n : nat)
    (flt : option metadata_t) :
  exists rows,
    select_similar cosine_distance probed table q flt q n
    = map (select_list cosine_distance q) rows
    /\ rows ⊆+ table
    /\ Forall (fun r => where_clause flt r = true) rows
    /\ (length rows <= n)%nat.
Proof.
  unfold select_similar.
  set (matching := filter (fun r => where_clause flt r = true) (index_scan probed table q)).
  set (ordered := order_by _ matching).
  exists (take n ordered). split; [reflexivity|]. split; [|split].
  - transitivity ordered; [apply sublist_submseteq, sublist_take|].
    transitivity matching.
    + apply Permutation_submseteq. unfold ordered, order_by. apply stable_sort_Permutation.
    + apply sublist_submseteq. transitivity (index_scan probed table q);
        apply sublist_filter.
  - apply Forall_forall. intros r Hr.
    apply (subseteq_take n ordered) in Hr.
    unfold ordered, order_by in Hr. rewrite stable_sort_Permutation in Hr.
    apply list_elem_of_filter in Hr as [Hr _]. exact Hr.
  - rewrite length_take. lia.
Qed.

(** The MMR search always returns. *)
Lemma mmr_select_total (k : nat) (lambda : Q) (candidates : list srow) :
  exists selected, mmr_select k lambda candidates = Some selected.
Proof.
  destruct candidates as [|first rest]; [exists []; reflexivity|].
  destruct (mmr_loop_greedy (length rest) k lambda [first] rest) as (final & H & _);
    [discriminate | lia | exists final; exact H].
Qed.

(** C1: for a non-empty fetch [first :: rest], [first] is the most similar
    candidate, the loop of [mmr_search] returns, and what it selects is the
    greedy selection from [[first]] and [rest]: while fewer than [k] items
    are selected and candidates remain, every remaining candidate gets the
    score [lambda * similarity - (1 - lambda) * m], with [m] the maximum of
    the content-length proxy over the selected items, and the first
    candidate of highest score is moved to the selection.  The result is
    the first [k] selected items. *)
Theorem mmr_search_greedy (table : list row) (q : vector) (k : nat) (lambda : Q)
    (fetch_k : nat) (flt : option metadata_t) (first : srow) (rest : list srow) :
  fetch cosine_distance probed table q fetch_k flt = inr (first :: rest) ->
  Forall (fun c => similarity c <= similarity first) rest
  /\ exists selected,
       mmr_select k lambda (first :: rest) = Some selected
       /\ Spec.greedy k lambda [first] rest selected
       /\ mmr_search cosine_distance probed table q k lambda fetch_k flt
          = Some (inr (map (fun d => (chunk_of_row d, similarity d)) (take k selected))).
Proof.
  intros Hfetch. split.
  - pose proof (select_similar_sorted table q fetch_k None) as Hs.
    destruct (fetch_inr _ _ _ _ _ Hfetch) as [_ Hc]. rewrite <- Hc in Hs.
    apply StronglySorted_inv in Hs as [_ Hs]. exact Hs.
  - destruct (mmr_loop_greedy (length rest) k lambda [first] rest)
      as (final & Hrun & Hgreedy); [discriminate | lia |].
    exists final. split; [exact Hrun|]. split; [exact Hgreedy|].
    unfold mmr_search. rewrite Hfetch. simpl. simpl in Hrun. rewrite Hrun. reflexivity.
Qed.

Lemma mmr_select_submseteq (k : nat) (lambda : Q) (candidates selected : list srow) :
  mmr_select k lambda candidates = Some selected -> selected ⊆+ candidates.
Proof.
  destruct candidates as [|first rest]; simpl.
  - intros [= <-]. reflexivity.
  - intros Hrun.
    destruct (mmr_loop_greedy (length rest) k lambda [first] rest)
      as (final & Hrun' & Hgreedy); [discriminate | lia |].
    rewrite Hrun in Hrun'. injection Hrun' as <-.
    apply greedy_selection in Hgreedy as (picked & -> & Hsub & _).
    simpl. apply submseteq_skip, Hsub.
Qed.

(** C4: on a table whose ids are unique (the primary key), [mmr_search]
    called without a filter returns; its result lists the first [k]
    selected items in selection order; every returned pair is a chunk of
    the table together with the similarity [1 - cosine_distance] of that
    chunk to the query; no chunk id occurs twice; and the length is at
    most [min k (min fetch_k (length table))]. *)
Theorem mmr_search_invariants (table : list row) (q : vector) (k : nat) (lambda : Q)
    (fetch_k : nat) (flt : option metadata_t) :
  NoDup (map row_id table) ->
  filter_given flt = false ->
  exists candidates selected res,
    fetch cosine_distance probed table q fetch_k flt = inr candidates
    /\ mmr_select k lambda candidates = Some selected
    /\ mmr_search cosine_distance probed table q k lambda fetch_k flt = Some (inr res)
    /\ res = map (fun d => (chunk_of_row d, similarity d)) (take k selected)
    /\ Forall (fun p => exists r,
                 In r table
                 /\ p.1 = mkDoc (row_id r) (row_content r) (row_metadata r) None
                 /\ p.2 = 1 - cosine_distance (row_embedding r) q) res
    /\ NoDup (map (fun p => doc_id p.1) res)
    /\ (length res <= Nat.min k (Nat.min fetch_k (length table)))%nat.
Proof.
  intros Hids Hflt.
  pose proof (fetch_no_filter table q fetch_k flt Hflt) as Hfetch.
  set (candidates := select_similar cosine_distance probed table q None q fetch_k) in *.
  destruct (mmr_select_total k lambda candidates) as [selected Hsel].
  exists candidates, selected,
    (map (fun d => (chunk_of_row d, similarity d)) (take k selected)).
  split; [exact Hfetch|]. split; [exact Hsel|].
  split; [unfold mmr_search; rewrite Hfetch, Hsel; reflexivity|].
  split; [reflexivity|].
  pose proof (mmr_select_submseteq _ _ _ _ Hsel) as Hsub.
  destruct (select_similar_rows table q fetch_k None) as (rows & Hrows & Hrt & _ & Hlen).
  fold candidates in Hrows. rewrite Hrows in Hsub.
  assert (Htake : take k selected ⊆+ map (select_list cosine_distance q) rows).
  { transitivity selected; [apply sublist_submseteq, sublist_take | exact Hsub]. }
  split; [|split].
  - apply List.Forall_map. apply Forall_forall. intros d Hd.
    eapply elem_of_submseteq in Hd; [|exact Htake].
    apply list_elem_of_In, in_map_iff in Hd as (r & <- & Hr).
    exists r. split; [|split; reflexivity].
    apply list_elem_of_In. eapply elem_of_submseteq; [|exact Hrt].
    apply list_elem_of_In, Hr.
  - rewrite map_map. simpl.
    apply (NoDup_map_submseteq id _ _ Htake).
    rewrite map_map. simpl.
    apply (NoDup_map_submseteq row_id _ _ Hrt). exact Hids.
  - rewrite length_map.
    apply submseteq_length in Hsub. apply submseteq_length in Hrt.
    rewrite length_map in Hsub. rewrite length_take. lia.
Qed.

(** With [lambda = 1] the score of a candidate is its similarity. *)
Lemma mmr_score_lambda_one (selected : list srow) (c : srow) :
  mmr_score 1 selected c == similarity c.
Proof. unfold mmr_score. ring. Qed.

Lemma max_from_head {A : Type} (key : A -> Q) (best : A) (xs : list A) :
  Forall (fun x => key x <= key best) xs -> Py.max_from key best xs = best.
Proof.
  induction 1 as [|x xs Hx _ IH]; simpl; [reflexivity|].
  apply Qgtb_false in Hx. rewrite Hx. exact IH.
Qed.

(** On candidates in descending similarity the loop with [lambda = 1]
    takes them in order. *)
Lemma mmr_loop_lambda_one (fuel k : nat) (selected remaining : list srow) :
  StronglySorted (fun a b => similarity b <= similarity a) remaining ->
  (length remaining <= fuel)%nat ->
  mmr_loop fuel k 1 selected remaining
  = Some (selected ++ take (k - length selected) remaining).
Proof.
  revert selected remaining.
  induction fuel as [|fuel IH]; intros selected remaining Hsorted Hfuel.
  - destruct remaining; [|simpl in Hfuel; lia].
    simpl. rewrite andb_false_r, take_nil, app_nil_r. reflexivity.
  - cbn [mmr_loop].
    destruct ((length selected <? k)%nat && negb (bool_decide (remaining = []))) eqn:C.
    2:{ apply andb_false_iff in C as [C | C].
        - apply Nat.ltb_ge in C. replace (k - length selected)%nat with O by lia.
          rewrite app_nil_r. reflexivity.
        - apply negb_false_iff, bool_decide_eq_true in C. subst remaining.
          rewrite take_nil, app_nil_r. reflexivity. }
    apply andb_true_iff in C as [Ck Cr]. apply Nat.ltb_lt in Ck.
    destruct remaining as [|r rs]; [discriminate|].
    apply StronglySorted_inv in Hsorted as [Hrs Hr].
    unfold mmr_scores. cbn [map Py.max_by].
    rewrite (max_from_scored (mmr_score 1 selected) rs r).
    rewrite max_from_head.
    2:{ eapply Forall_impl; [exact Hr|]. intros c Hc. simpl in Hc.
        rewrite !mmr_score_lambda_one. exact Hc. }
    cbn [Py.remove]. rewrite srow_eqb_refl.
    rewrite IH; [|exact Hrs | simpl in Hfuel; lia].
    rewrite length_app. simpl.
    replace (k - length selected)%nat with (S (k - (length selected + 1))) by lia.
    rewrite <- app_assoc. reflexivity.
Qed.

(** With [lambda = 1] the selection is the first [k] candidates. *)
Lemma mmr_select_lambda_one (k : nat) (candidates : list srow) :
  StronglySorted (fun a b => similarity b <= similarity a) candidates ->
  mmr_select k 1 candidates ≫= (fun selected => Some (take k selected))
  = Some (take k candidates).
Proof.
  intros Hs. destruct candidates as [|first rest].
  - simpl. rewrite take_nil. reflexivity.
  - apply StronglySorted_inv in Hs as [Hs _]. simpl.
    rewrite mmr_loop_lambda_one; [|exact Hs | lia]. simpl.
    destruct k as [|k]; [reflexivity|]. simpl. rewrite Nat.sub_0_r.
    rewrite firstn_firstn. f_equal. f_equal. f_equal. lia.
Qed.

(** C5: with [lambda = 1], [mmr_search] returns the chunks of
    [similarity_search] with the same [k], cut to the first [fetch_k]
    candidates, in the same order and with the same scores (and raises
    what [similarity_search] raises). *)
Theorem mmr_search_lambda_one (table : list row) (q : vector) (k fetch_k : nat)
    (flt : option metadata_t) :
  mmr_search cosine_distance probed table q k 1 fetch_k flt
  = Some match similarity_search cosine_distance probed table q k flt with
         | inl e => inl e
         | inr res => inr (map (fun p => (Spec.chunk_of p.1, p.2)) (take fetch_k res))
         end.
Proof.
  unfold mmr_search, similarity_search.
  destruct (filter_given flt) eqn:Hflt.
  { rewrite !fetch_filter by exact Hflt. reflexivity. }
  rewrite !fetch_no_filter by exact Hflt.
  pose proof (mmr_select_lambda_one k _ (select_similar_sorted table q fetch_k None))
    as Hsel.
  destruct (mmr_select k 1 _) as [selected|]; [|discriminate].
  simpl in Hsel |- *. injection Hsel as ->. do 2 f_equal.
  unfold select_similar.
  rewrite <- !firstn_map, !map_map, firstn_firstn, firstn_firstn. simpl.
  rewrite Nat.min_comm. reflexivity.
Qed.

Lemma where_clause_no_filter (flt : option metadata_t) (r : row) :
  filter_given flt = false -> where_clause flt r = true.
Proof.
  destruct flt as [f|]; [|reflexivity]. simpl. intros H.
  apply negb_false_iff in H. rewrite H. reflexivity.
Qed.

(** C6 (as amended): called without a filter, [similarity_search]
    returns at most [k] scored chunks in descending order of score, equal
    scores allowed; each one is a chunk of the table with the score
    [1 - cosine_distance] of its embedding to the query. *)
Theorem similarity_search_descending (table : list row) (q : vector) (k : nat)
    (flt : option metadata_t) :
  filter_given flt = false ->
  exists res,
    similarity_search cosine_distance probed table q k flt = inr res
    /\ (length res <= k)%nat
    /\ Spec.descending res
    /\ Forall (fun p => exists r,
                 In r table
                 /\ p.1 = mkDoc (row_id r) (row_content r) (row_metadata r) (Some p.2)
                 /\ p.2 = 1 - cosine_distance (row_embedding r) q) res.
Proof.
  intros Hflt. unfold similarity_search.
  rewrite fetch_no_filter by exact Hflt.
  eexists. split; [reflexivity|].
  destruct (select_similar_rows table q k None) as (rows & Hrows & Hrt & _ & Hlen).
  split; [|split].
  - rewrite Hrows, !length_map. exact Hlen.
  - unfold Spec.descending.
    apply StronglySorted_Sorted, StronglySorted_map. simpl.
    apply select_similar_sorted.
  - rewrite Hrows, map_map. apply List.Forall_map. simpl.
    apply Forall_forall. intros r Hr.
    exists r. split; [|split; reflexivity].
    apply list_elem_of_In. eapply elem_of_submseteq; eauto.
Qed.

End StoreFacts.

(** ** The reranker *)

Section RerankFacts.
Import VectorStore Reranker.
Variable cross_encoder : string -> string -> Q.

(** Each document is paired with the score of [(query, content)]. *)
Lemma rerank_scores (query : string) (documents : list (doc * Q)) :
  map (fun ds => ((ds.1).1, ds.2))
      (zip documents (predict cross_encoder (map (fun d => (query, doc_content d.1)) documents)))
  = map (fun d => (d.1, cross_encoder query (doc_content d.1))) documents.
Proof.
  unfold predict. induction documents as [|d documents IH]; simpl; [reflexivity|].
  f_equal. exact IH.
Qed.

Lemma sort_desc_sorted {A : Type} (l : list (A * Q)) :
  StronglySorted (fun a b => b.2 <= a.2) (Py.sort_desc snd l).
Proof.
  unfold Py.sort_desc. apply stable_sort_sorted.
  - intros x y H. apply Qle_bool_iff in H. exact H.
  - intros x y H. apply Qle_bool_false in H. apply Qlt_le_weak, H.
  - intros x y z H1 H2. eapply Qle_trans; eassumption.
Qed.

Lemma rerank_length (query : string) (documents : list (doc * Q)) (top_k : nat) :
  length (rerank cross_encoder query documents top_k) = Nat.min top_k (length documents).
Proof.
  destruct documents as [|d ds]; [simpl; rewrite Nat.min_0_r; reflexivity|].
  unfold rerank. rewrite rerank_scores, length_take. unfold Py.sort_desc.
  rewrite stable_sort_length, length_map. reflexivity.
Qed.

(** C3 (as amended): [rerank] returns the empty list on empty input, and
    otherwise exactly [min top_k (length documents)] scored chunks in
    descending order of the new score, equal scores allowed; each returned
    chunk is one of the candidates and its score is the cross-encoder
    score of [(query, content)], whatever its input score was. *)
Theorem rerank_descending (query : string) (documents : list (doc * Q)) (top_k : nat) :
  rerank cross_encoder query [] top_k = []
  /\ length (rerank cross_encoder query documents top_k)
     = Nat.min top_k (length documents)
  /\ Spec.descending (rerank cross_encoder query documents top_k)
  /\ Forall (fun p => p.2 = cross_encoder query (doc_content p.1)
                      /\ exists old, In (p.1, old) documents)
            (rerank cross_encoder query documents top_k).
Proof.
  split; [reflexivity|]. split; [apply rerank_length|].
  destruct documents as [|d ds].
  { simpl. split; constructor. }
  unfold rerank. rewrite rerank_scores.
  set (docs := d :: ds).
  set (scored := map (fun d => (d.1, cross_encoder query (doc_content d.1))) docs).
  split.
  - apply StronglySorted_Sorted, StronglySorted_take, sort_desc_sorted.
  - apply Forall_forall. intros p Hp.
    apply (subseteq_take top_k) in Hp.
    unfold Py.sort_desc in Hp. rewrite stable_sort_Permutation in Hp.
    apply list_elem_of_In, in_map_iff in Hp as ([c old] & <- & Hc). simpl.
    split; [reflexivity | exists old; exact Hc].
Qed.

End RerankFacts.

(** ** Closed instances on the fixtures *)

Section Instances.
Import VectorStore Fixtures.

(** The fetch of the fixtures, and the theorem of C1 on it. *)
Lemma mmr_search_greedy_witness :
  fetch unit_cosine_distance seq_scan table4 [1; 0] 20 None = inr (first4 :: rest4)
  /\ (Forall (fun c => similarity c <= similarity first4) rest4
      /\ exists selected,
           mmr_select 3 (1 # 2) (first4 :: rest4) = Some selected
           /\ Spec.greedy 3 (1 # 2) [first4] rest4 selected
           /\ mmr_search unit_cosine_distance seq_scan table4 [1; 0] 3 (1 # 2) 20 None
              = Some (inr (map (fun d => (chunk_of_row d, similarity d))
                               (take 3 selected)))).
Proof.
  assert (H : fetch unit_cosine_distance seq_scan table4 [1; 0] 20 None
              = inr (first4 :: rest4))
    by (vm_compute; reflexivity).
  split; [exact H|].
  exact (mmr_search_greedy unit_cosine_distance seq_scan table4 [1; 0] 3 (1 # 2) 20 None
           first4 rest4 H).
Defined.

Lemma table4_ids : NoDup (map row_id table4).
Proof. apply (bool_decide_unpack _). vm_compute. exact I. Defined.

(** The ids of the fixtures are unique, and the theorem of C4 on them. *)
Lemma mmr_search_invariants_witness :
  (NoDup (map row_id table4) /\ filter_given None = false)
  /\ exists candidates selected res,
       fetch unit_cosine_distance seq_scan table4 [1; 0] 2 None = inr candidates
       /\ mmr_select 3 (1 # 2) candidates = Some selected
       /\ mmr_search unit_cosine_distance seq_scan table4 [1; 0] 3 (1 # 2) 2 None
          = Some (inr res)
       /\ res = map (fun d => (chunk_of_row d, similarity d)) (take 3 selected)
       /\ Forall (fun p => exists r,
                    In r table4
                    /\ p.1 = mkDoc (row_id r) (row_content r) (row_metadata r) None
                    /\ p.2 = 1 - unit_cosine_distance (row_embedding r) [1; 0]) res
       /\ NoDup (map (fun p => doc_id p.1) res)
       /\ (length res <= Nat.min 3 (Nat.min 2 (length table4)))%nat.
Proof.
  split; [split; [exact table4_ids | reflexivity]|].
  exact (mmr_search_invariants unit_cosine_distance seq_scan table4 [1; 0] 3 (1 # 2) 2
           None table4_ids eq_refl).
Defined.

(** The theorem of C6 on the fixtures, the index probing one list: the
    chunk off the first axis is not reached. *)
Lemma similarity_search_descending_witness :
  filter_given (Some ∅) = false
  /\ exists res,
       similarity_search unit_cosine_distance first_axis_list table4 [1; 0] 10 (Some ∅)
       = inr res
       /\ (length res <= 10)%nat
       /\ Spec.descending res
       /\ Forall (fun p => exists r,
                    In r table4
                    /\ p.1 = mkDoc (row_id r) (row_content r) (row_metadata r) (Some p.2)
                    /\ p.2 = 1 - unit_cosine_distance (row_embedding r) [1; 0]) res.
Proof.
  split; [reflexivity|].
  exact (similarity_search_descending unit_cosine_distance first_axis_list table4 [1; 0]
           10 (Some ∅) eq_refl).
Defined.

(** C6 as stated fails.  Two stored chunks with the same embedding come
    back with the same score, so the order is not strictly descending; and
    with the filter on [a.pdf] the call raises instead of returning the
    chunks of that file. *)
Lemma similarity_search_ties :
  (exists res,
     similarity_search unit_cosine_distance seq_scan table4 [1; 0] 2 None = inr res
     /\ map (fun p => (doc_id p.1, Qred p.2)) res = [(1%N, 1); (4%N, 1)]
     /\ ~ Spec.strictly_descending res)
  /\ similarity_search unit_cosine_distance seq_scan table4 [1; 0] 2
       (Some (file "a.pdf"))
     = inl BadParameter.
Proof.
  split; [|vm_compute; reflexivity].
  eexists. split; [vm_compute; reflexivity|]. split; [vm_compute; reflexivity|].
  intros H. apply Sorted_inv in H as [_ H]. apply HdRel_inv in H.
  vm_compute in H. discriminate H.
Qed.

(** C3 as stated fails: two candidates with the same content get the same
    score from any cross-encoder, so the order is not strictly descending. *)
Lemma rerank_ties :
  map (fun p => (doc_id p.1, Qred p.2)) (Reranker.rerank length_encoder "q" twins 2)
  = [(1%N, 4); (4%N, 4)]
  /\ ~ Spec.strictly_descending (Reranker.rerank length_encoder "q" twins 2).
Proof.
  split; [vm_compute; reflexivity|].
  intros H. apply Sorted_inv in H as [_ H]. apply HdRel_inv in H.
  vm_compute in H. discriminate H.
Qed.

End Instances.

(** ** The tool router *)

Section RouterFacts.
Import Py RAG.

Lemma startswith_spec (s p : string) :
  startswith s p = true <-> exists post, s = p +:+ post.
Proof.
  revert s. induction p as [|a p IH]; intros s; simpl.
  - split; [intros _; exists s; reflexivity | reflexivity].
  - destruct s as [|b s].
    + split; [discriminate | intros [post H]; discriminate].
    + rewrite andb_true_iff, bool_decide_eq_true, IH. split.
      * intros [-> [post ->]]. exists post. reflexivity.
      * intros [post [= -> ->]]. split; [reflexivity | exists post; reflexivity].
Qed.

Lemma contains_spec (s kw : string) :
  contains s kw = true <-> exists pre post, s = pre +:+ kw +:+ post.
Proof.
  induction s as [|c s IH]; simpl.
  - rewrite orb_false_r, startswith_spec. split.
    + intros [post H]. exists "", post. exact H.
    + intros (pre & post & H). destruct pre; [exists post; exact H | discriminate].
  - rewrite orb_true_iff, startswith_spec, IH. split.
    + intros [[post H] | (pre & post & H)].
      * exists "", post. exact H.
      * exists (String c pre), post. simpl. rewrite H. reflexivity.
    + intros (pre & post & H). destruct pre as [|c' pre].
      * left. exists post. exact H.
      * right. injection H as -> ->. exists pre, post. reflexivity.
Qed.

Lemma ascii_lower_app (a b : string) :
  ascii_lower (a +:+ b) = ascii_lower a +:+ ascii_lower b.
Proof. induction a as [|c a IH]; simpl; [reflexivity | rewrite IH; reflexivity]. Qed.

Lemma ascii_lower_split (s a b : string) :
  ascii_lower s = a +:+ b ->
  exists a' b', s = a' +:+ b' /\ ascii_lower a' = a /\ ascii_lower b' = b.
Proof.
  revert s. induction a as [|c a IH]; intros s H; simpl in H.
  - exists "", s. auto.
  - destruct s as [|d s]; [discriminate|]. simpl in H. injection H as Hc H.
    destruct (IH s H) as (a' & b' & -> & Ha & Hb).
    exists (String d a'), b'. simpl. rewrite Ha, Hc. auto.
Qed.

(** A capital becomes its small letter, a small letter stays. *)
Lemma lower_ascii_capital (i : nat) :
  (i < 26)%nat -> lower_ascii (ascii_of_nat (65 + i)) = ascii_of_nat (97 + i).
Proof.
  intros Hi. unfold lower_ascii. rewrite nat_ascii_embedding by lia.
  replace ((65 <=? 65 + i)%nat && (65 + i <=? 90)%nat) with true.
  - f_equal. lia.
  - symmetry. apply andb_true_iff. split; apply Nat.leb_le; lia.
Qed.

Lemma lower_ascii_small (i : nat) :
  (i < 26)%nat -> lower_ascii (ascii_of_nat (97 + i)) = ascii_of_nat (97 + i).
Proof.
  intros Hi. unfold lower_ascii. rewrite nat_ascii_embedding by lia.
  replace ((97 + i <=? 90)%nat) with false; [rewrite andb_false_r; reflexivity|].
  symmetry. apply Nat.leb_gt. lia.
Qed.

(** Two characters are the same letter exactly when [str.lower] makes
    them equal. *)
Lemma same_letter_lower (a b : ascii) :
  Spec.same_letter a b <-> lower_ascii a = lower_ascii b.
Proof.
  split.
  - intros [-> | (i & Hi & [[-> ->] | [-> ->]])]; [reflexivity| |].
    + rewrite lower_ascii_capital, lower_ascii_small by exact Hi. reflexivity.
    + rewrite lower_ascii_capital, lower_ascii_small by exact Hi. reflexivity.
  - unfold lower_ascii. intros H.
    pose proof (nat_ascii_bounded a) as Ba. pose proof (nat_ascii_bounded b) as Bb.
    pose proof (ascii_nat_embedding a) as Ea. pose proof (ascii_nat_embedding b) as Eb.
    destruct ((65 <=? nat_of_ascii a)%nat && (nat_of_ascii a <=? 90)%nat) eqn:Ca;
      destruct ((65 <=? nat_of_ascii b)%nat && (nat_of_ascii b <=? 90)%nat) eqn:Cb;
      try (apply andb_true_iff in Ca as [Ca1 Ca2];
           apply Nat.leb_le in Ca1; apply Nat.leb_le in Ca2);
      try (apply andb_true_iff in Cb as [Cb1 Cb2];
           apply Nat.leb_le in Cb1; apply Nat.leb_le in Cb2).
    + left. apply (f_equal nat_of_ascii) in H.
      rewrite !nat_ascii_embedding in H by lia.
      rewrite <- Ea, <- Eb. f_equal. lia.
    + right. exists (nat_of_ascii a - 65)%nat. split; [lia|]. left. split.
      * rewrite <- Ea at 1. f_equal. lia.
      * rewrite <- H. f_equal. lia.
    + right. exists (nat_of_ascii b - 65)%nat. split; [lia|]. right. split.
      * rewrite H. f_equal. lia.
      * rewrite <- Eb at 1. f_equal. lia.
    + left. exact H.
Qed.

Lemma same_text_lower (s t : string) :
  Spec.same_text s t <-> ascii_lower s = ascii_lower t.
Proof.
  revert t. induction s as [|a s IH]; intros [|b t]; simpl;
    try (split; [tauto | discriminate]); [tauto|].
  rewrite same_letter_lower, IH. split.
  - intros [-> ->]. reflexivity.
  - intros [= Ha Hs]. auto.
Qed.

(** Containment of a keyword in lower case in the lowered question is
    occurrence up to letter case. *)
Lemma contains_lower (question kw : string) :
  ascii_lower kw = kw ->
  contains (ascii_lower question) kw = true <-> Spec.occurs_in kw question.
Proof.
  intros Hkw. rewrite contains_spec. unfold Spec.occurs_in. split.
  - intros (pre & post & H).
    apply ascii_lower_split in H as (pre' & r & -> & _ & Hr).
    apply ascii_lower_split in Hr as (w & post' & -> & Hw & _).
    exists pre', w, post'. split; [reflexivity|].
    apply same_text_lower. congruence.
  - intros (pre & w & post & -> & Hw). apply same_text_lower in Hw.
    exists (ascii_lower pre), (ascii_lower post).
    rewrite !ascii_lower_app. congruence.
Qed.

Lemma any_contains (question : string) (keywords : list string) :
  Forall (fun kw => ascii_lower kw = kw) keywords ->
  any (fun kw => contains (ascii_lower question) kw) keywords = true
  <-> Spec.matches keywords question.
Proof.
  intros Hkw. rewrite Forall_forall in Hkw.
  unfold any, Spec.matches. rewrite existsb_exists.
  split; intros (kw & Hin & H); exists kw; (split; [exact Hin|]);
    apply contains_lower; auto using list_elem_of_In; apply Hkw, list_elem_of_In, Hin.
Qed.

(** The keywords of the router are in lower case. *)
Lemma keywords_lower :
  Forall (fun kw => ascii_lower kw = kw)
         (greeting_keywords ++ web_search_keywords ++ rag_keywords).
Proof. repeat constructor. Qed.

(** [str.lower]: on ASCII text, capitals become small letters. *)
Variable str_lower : string -> string.
Hypothesis str_lower_ascii :
  forall s, is_ascii s = true -> str_lower s = ascii_lower s.


End RouterFacts.

(** ** The orchestrator *)

Section OrchestratorFacts.
Import VectorStore Conversation RAG.
Variable str_lower : string -> string.
Variable cosine_distance : vector -> vector -> Q.
Variable probed : list row -> vector -> row -> bool.
Variable cross_encoder : string -> string -> Q.
Variable embed_text : string -> vector.
Variable chat_completion : llm_request -> option llm_response.
Variable ddgs_text : string -> nat -> option (list WebSearch.ddg_hit).
Variable format_2f : Q -> string.
Variable table : list row.

Local Abbreviation route := (_route_to_tool str_lower).
Local Abbreviation retrieve := (rag_retrieve cosine_distance probed embed_text table).
Local Abbreviation answer_with_rag :=
  (_answer_with_rag cosine_distance probed cross_encoder embed_text chat_completion
     format_2f table).
Local Abbreviation answer_with_web_search :=
  (_answer_with_web_search chat_completion ddgs_text).
Local Abbreviation answer_directly := (_answer_directly chat_completion).
Local Abbreviation run_query :=
  (query str_lower cosine_distance probed cross_encoder embed_text chat_completion
     ddgs_text format_2f table).

Ltac run_monad :=
  unfold bind, ret, raise, get_redis, llm_create, when, cm_add_message; simpl.

(** Reranking is skipped on an empty pool. *)
Lemma rag_rerank_nil (self : system) (question : string) (k : nat) (use_rerank : bool) :
  rag_rerank cross_encoder self question k use_rerank [] = [].
Proof. unfold rag_rerank. simpl. rewrite andb_false_r. reflexivity. Qed.

(** The early return of the rag path: the fixed result, the world untouched. *)
Lemma answer_with_rag_empty (self : system) (question : string)
    (conversation_id : option string) (k : nat) (use_mmr use_rerank eco_mode : bool)
    (filter_document : option string) (w : world) :
  retrieve question k use_mmr use_rerank filter_document = Some (inr []) ->
  answer_with_rag self question conversation_id k use_mmr use_rerank eco_mode
    filter_document w
  = (inr (mkQueryResult "I couldn't find relevant information in the documents."
            [] "rag" (Some "similarity") (Some false) 0), w).
Proof.
  intros H. unfold _answer_with_rag. rewrite H, rag_rerank_nil. reflexivity.
Qed.

(** The early return of the web search path. *)
Lemma answer_with_web_search_empty (self : system) (question : string)
    (conversation_id : option string) (eco_mode : bool) (w : world) (n : nat) :
  web_search self = Some n ->
  WebSearch.search ddgs_text n question (Some 3%nat) = [] ->
  answer_with_web_search self question conversation_id eco_mode w
  = (inr (mkQueryResult "I couldn't find relevant information on the web."
            [] "web_search" None None 0), w).
Proof.
  intros Hn H. unfold _answer_with_web_search. rewrite Hn, H. reflexivity.
Qed.

Lemma persistence_rag (self : system) (question : string)
    (conversation_id : option string) (k : nat) (use_mmr use_rerank eco_mode : bool)
    (filter_document : option string) (w : world) :
  let run := answer_with_rag self question conversation_id k use_mmr use_rerank
               eco_mode filter_document w in
  Spec.persistence chat_completion self conversation_id question w run.1 run.2.
Proof.
  unfold _answer_with_rag.
  destruct (retrieve question k use_mmr use_rerank filter_document) as [[e|results]|];
    [reflexivity| |reflexivity].
  destruct (rag_rerank cross_encoder self question k use_rerank results) as [|d ds].
  { left. auto. }
  run_monad.
  match goal with |- context [chat_completion ?r] =>
    destruct (chat_completion r) as [[text tokens]|] eqn:E end; [|reflexivity].
  destruct (has_history self conversation_id) eqn:Hh; simpl; right;
    eexists; (split; [reflexivity|]); (split; [exact E|]); rewrite Hh.
  - eexists _, _. reflexivity.
  - reflexivity.
Qed.

Lemma persistence_web_search (self : system) (question : string)
    (conversation_id : option string) (eco_mode : bool) (w : world) :
  let run := answer_with_web_search self question conversation_id eco_mode w in
  Spec.persistence chat_completion self conversation_id question w run.1 run.2.
Proof.
  unfold _answer_with_web_search.
  destruct (web_search self) as [n|]; [|reflexivity].
  destruct (WebSearch.search ddgs_text n question (Some 3%nat)) as [|r rs].
  { left. auto. }
  run_monad.
  match goal with |- context [chat_completion ?r] =>
    destruct (chat_completion r) as [[text tokens]|] eqn:E end; [|reflexivity].
  destruct (has_history self conversation_id) eqn:Hh; simpl; right;
    eexists; (split; [reflexivity|]); (split; [exact E|]); rewrite Hh.
  - eexists _, _. reflexivity.
  - reflexivity.
Qed.

Lemma persistence_directly (self : system) (question : string)
    (conversation_id : option string) (eco_mode : bool) (w : world) :
  let run := answer_directly self question conversation_id eco_mode w in
  Spec.persistence chat_completion self conversation_id question w run.1 run.2.
Proof.
  unfold _answer_directly, format_for_llm. run_monad.
  destruct (has_history self conversation_id) eqn:Hh; destruct eco_mode; simpl;
    match goal with |- context [chat_completion ?r] =>
      destruct (chat_completion r) as [[text tokens]|] eqn:E end;
    try reflexivity; simpl; right;
    eexists; (split; [reflexivity|]); (split; [exact E|]); rewrite Hh;
    try reflexivity; eexists _, _; reflexivity.
Qed.

Lemma query_rag (self : system) (question : string) (conversation_id : option string)
    (k : nat) (use_mmr use_rerank eco_mode : bool) (filter_document : option string) :
  route question = "rag" ->
  run_query self question conversation_id k use_mmr use_rerank eco_mode filter_document
  = answer_with_rag self question conversation_id k use_mmr use_rerank eco_mode
      filter_document.
Proof. intros H. unfold query. rewrite H. reflexivity. Qed.

Lemma query_web_search (self : system) (question : string)
    (conversation_id : option string) (k : nat) (use_mmr use_rerank eco_mode : bool)
    (filter_document : option string) :
  route question = "web_search" ->
  run_query self question conversation_id k use_mmr use_rerank eco_mode filter_document
  = answer_with_web_search self question conversation_id eco_mode.
Proof. intros H. unfold query. rewrite H. reflexivity. Qed.

(** C8: when the retrieval of the rag path returns no chunk, the path
    (and a query routed to it) returns, without raising and with the world
    unchanged, hence without a call of the LLM, the fixed answer "I
    couldn't find relevant information in the documents." with no sources
    and zero tokens; when the web search returns no result, the web search
    path does the same with its own fixed answer. *)
Theorem empty_result_canned (self : system) (question : string)
    (conversation_id : option string) (k : nat) (use_mmr use_rerank eco_mode : bool)
    (filter_document : option string) (w : world) :
  (retrieve question k use_mmr use_rerank filter_document = Some (inr []) ->
   exists r,
     answer_with_rag self question conversation_id k use_mmr use_rerank eco_mode
       filter_document w = (inr r, w)
     /\ (route question = "rag" ->
         run_query self question conversation_id k use_mmr use_rerank eco_mode
           filter_document w = (inr r, w))
     /\ answer r = "I couldn't find relevant information in the documents."
     /\ sources r = [] /\ num_tokens r = O)
  /\ (forall n,
        web_search self = Some n ->
        WebSearch.search ddgs_text n question (Some 3%nat) = [] ->
        exists r,
          answer_with_web_search self question conversation_id eco_mode w = (inr r, w)
          /\ (route question = "web_search" ->
              run_query self question conversation_id k use_mmr use_rerank eco_mode
                filter_document w = (inr r, w))
          /\ answer r = "I couldn't find relevant information on the web."
          /\ sources r = [] /\ num_tokens r = O).
Proof.
  split.
  - intros H. eexists. split; [apply answer_with_rag_empty, H|].
    split; [|auto]. intros Hroute. rewrite query_rag by exact Hroute.
    apply answer_with_rag_empty, H.
  - intros n Hn H. eexists. split; [eapply answer_with_web_search_empty; eassumption|].
    split; [|auto]. intros Hroute. rewrite query_web_search by exact Hroute.
    eapply answer_with_web_search_empty; eassumption.
Qed.

(** C10: when the retrieval of the rag path returns no chunk, the result
    reports the retrieval method "similarity" and [reranked = False],
    whatever [use_mmr] and [use_rerank] were. *)
Theorem empty_result_method (self : system) (question : string)
    (conversation_id : option string) (k : nat) (use_mmr use_rerank eco_mode : bool)
    (filter_document : option string) (w : world) :
  retrieve question k use_mmr use_rerank filter_document = Some (inr []) ->
  exists r,
    answer_with_rag self question conversation_id k use_mmr use_rerank eco_mode
      filter_document w = (inr r, w)
    /\ (route question = "rag" ->
        run_query self question conversation_id k use_mmr use_rerank eco_mode
          filter_document w = (inr r, w))
    /\ retrieval_method r = Some "similarity"
    /\ reranked r = Some false.
Proof.
  intros H. eexists. split; [apply answer_with_rag_empty, H|].
  split; [|auto]. intros Hroute. rewrite query_rag by exact Hroute.
  apply answer_with_rag_empty, H.
Qed.

(** C9: a query leaves the conversation store as it was when it raises
    and when it returns early without calling the LLM; after an answer of
    the LLM on the direct, web search or rag path it appends the question
    and the answer, provided a conversation id and a store are available.
    In particular the "no results" returns of the rag and web search paths
    leave the store unchanged. *)
Theorem conversation_persistence (self : system) (question : string)
    (conversation_id : option string) (k : nat) (use_mmr use_rerank eco_mode : bool)
    (filter_document : option string) (w : world) :
  let run := run_query self question conversation_id k use_mmr use_rerank eco_mode
               filter_document w in
  Spec.persistence chat_completion self conversation_id question w run.1 run.2
  /\ (retrieve question k use_mmr use_rerank filter_document = Some (inr []) ->
      redis (answer_with_rag self question conversation_id k use_mmr use_rerank
               eco_mode filter_document w).2 = redis w)
  /\ (forall n,
        web_search self = Some n ->
        WebSearch.search ddgs_text n question (Some 3%nat) = [] ->
        redis (answer_with_web_search self question conversation_id eco_mode w).2
        = redis w).
Proof.
  cbv zeta. split; [|split].
  - unfold query. repeat case_bool_decide.
    + apply persistence_directly.
    + apply persistence_web_search.
    + apply persistence_rag.
    + apply persistence_rag.
  - intros H. rewrite answer_with_rag_empty by exact H. reflexivity.
  - intros n Hn H. erewrite answer_with_web_search_empty by eassumption. reflexivity.
Qed.

End OrchestratorFacts.

(** ** Closed instances of the orchestrator on the fixtures *)

Section OrchestratorInstances.
Import VectorStore Conversation RAG Fixtures.


(** On an empty table, with MMR and reranking requested, the retrieval is
    empty; the theorem of C10 there. *)
Lemma empty_result_method_witness :
  rag_retrieve unit_cosine_distance seq_scan embed_axis [] "random unrelated question" 5 true true None
  = Some (inr [])
  /\ exists r,
       _answer_with_rag unit_cosine_distance seq_scan length_encoder embed_axis echo_llm
         two_decimals [] full_system "random unrelated question" (Some "c1") 5 true true
         false None world0 = (inr r, world0)
       /\ (_route_to_tool lower "random unrelated question" = "rag" ->
           query lower unit_cosine_distance seq_scan length_encoder embed_axis echo_llm no_hits
             two_decimals [] full_system "random unrelated question" (Some "c1") 5 true
             true false None world0 = (inr r, world0))
       /\ retrieval_method r = Some "similarity"
       /\ reranked r = Some false.
Proof.
  assert (H : rag_retrieve unit_cosine_distance seq_scan embed_axis []
                "random unrelated question" 5 true true None = Some (inr []))
    by (vm_compute; reflexivity).
  split; [exact H|].
  exact (empty_result_method lower unit_cosine_distance seq_scan length_encoder embed_axis echo_llm
           no_hits two_decimals [] full_system "random unrelated question" (Some "c1")
           5 true true false None world0 H).
Defined.

(** The empty store end to end: the LLM is not consulted, so a failing
    LLM changes nothing. *)
Lemma empty_store_example :
  query lower unit_cosine_distance seq_scan length_encoder embed_axis failing_llm no_hits two_decimals
    [] full_system "random unrelated question" (Some "c1") 5 false false false None world0
  = (inr (mkQueryResult "I couldn't find relevant information in the documents."
            [] "rag" (Some "similarity") (Some false) 0), world0)
  /\ query lower unit_cosine_distance seq_scan length_encoder embed_axis failing_llm no_hits two_decimals
       table4 full_system "what's the weather today" (Some "c1") 5 false false false None
       world0
     = (inr (mkQueryResult "I couldn't find relevant information on the web."
               [] "web_search" None None 0), world0).
Proof. split; vm_compute; reflexivity. Qed.

(** A rag answer with results: one call of the LLM, two messages stored. *)
Lemma rag_exchange_example :
  let run :=
    query lower unit_cosine_distance seq_scan length_encoder embed_axis echo_llm no_hits two_decimals
      table4 full_system "random unrelated question" (Some "c1") 2 false false false None
      world0 in
  (exists r, run.1 = inr r /\ answer r = "ok" /\ length (sources r) = 2%nat)
  /\ length (llm_calls run.2) = 1%nat
  /\ (map (fun m => (role m, content m)) <$> redis run.2 !! "conversation:c1")
     = Some [("user", "random unrelated question"); ("assistant", "ok")].
Proof.
  cbv zeta. split; [eexists; split; [vm_compute; reflexivity | split; reflexivity]|].
  split; vm_compute; reflexivity.
Qed.

(** A web search answer: the hit becomes a source with score [1.0], and
    the exchange is stored. *)
Lemma web_exchange_example :
  let run :=
    query lower unit_cosine_distance seq_scan length_encoder embed_axis echo_llm one_hit two_decimals
      table4 full_system "what's the weather today" (Some "c1") 2 false false false None
      world0 in
  (exists r, run.1 = inr r /\ answer r = "ok"
             /\ map (fun s => (src_section s, Qred (src_score s))) (sources r)
                = [(Some (JStr "Forecast"), 1)])
  /\ length (llm_calls run.2) = 1%nat
  /\ (map (fun m => (role m, content m)) <$> redis run.2 !! "conversation:c1")
     = Some [("user", "what's the weather today"); ("assistant", "ok")].
Proof.
  cbv zeta. split; [eexists; split; [vm_compute; reflexivity | split; reflexivity]|].
  split; vm_compute; reflexivity.
Qed.

(** A greeting goes to the LLM directly; an LLM failure surfaces as an
    exception and nothing is stored. *)
Lemma direct_exchange_example :
  (query lower unit_cosine_distance seq_scan length_encoder embed_axis echo_llm no_hits two_decimals
     table4 full_system "hello there" None 2 false false true None world0).1
  = inr (mkQueryResult "ok" [] "direct_llm" None None 42)
  /\ (let run :=
        query lower unit_cosine_distance seq_scan length_encoder embed_axis failing_llm no_hits
          two_decimals table4 full_system "hello there" (Some "c1") 2 false false true
          None world0 in
      run.1 = inl LLMError /\ redis run.2 = redis world0).
Proof. cbv zeta. repeat split; vm_compute; reflexivity. Qed.

(** C7: the code at the failing input.  With [k = 1] and reranking
    requested on a table of four chunks, retrieval by MMR hands one chunk
    to the reranker, not [2k = 2], while retrieval by similarity search
    fetches the [2k = 2] chunks for the same request. *)
Lemma mmr_pool_not_widened :
  (exists pool,
     rag_retrieve unit_cosine_distance seq_scan embed_axis table4 "q" 1 true true None
     = Some (inr pool)
     /\ length pool = 1%nat)
  /\ (exists pool,
        rag_retrieve unit_cosine_distance seq_scan embed_axis table4 "q" 1 false true None
        = Some (inr pool)
        /\ length pool = 2%nat).
Proof.
  split; eexists; (split; [vm_compute; reflexivity|]); reflexivity.
Qed.

(** The two early returns on the fixtures: the theorem of C8 on an empty
    table and on a web search without hits, with an LLM that always fails. *)
Lemma empty_result_canned_witness :
  (rag_retrieve unit_cosine_distance seq_scan embed_axis [] "random unrelated question" 5 false
     false None = Some (inr [])
   /\ WebSearch.search no_hits 3 "what's the weather today" (Some 3%nat) = [])
  /\ (exists r,
        _answer_with_rag unit_cosine_distance seq_scan length_encoder embed_axis failing_llm
          two_decimals [] full_system "random unrelated question" (Some "c1") 5 false
          false false None world0 = (inr r, world0)
        /\ (_route_to_tool lower "random unrelated question" = "rag" ->
            query lower unit_cosine_distance seq_scan length_encoder embed_axis failing_llm no_hits
              two_decimals [] full_system "random unrelated question" (Some "c1") 5
              false false false None world0 = (inr r, world0))
        /\ answer r = "I couldn't find relevant information in the documents."
        /\ sources r = [] /\ num_tokens r = O)
  /\ (exists r,
        _answer_with_web_search failing_llm no_hits full_system
          "what's the weather today" (Some "c1") false world0 = (inr r, world0)
        /\ (_route_to_tool lower "what's the weather today" = "web_search" ->
            query lower unit_cosine_distance seq_scan length_encoder embed_axis failing_llm no_hits
              two_decimals [] full_system "what's the weather today" (Some "c1") 5
              false false false None world0 = (inr r, world0))
        /\ answer r = "I couldn't find relevant information on the web."
        /\ sources r = [] /\ num_tokens r = O).
Proof.
  assert (H1 : rag_retrieve unit_cosine_distance seq_scan embed_axis []
                 "random unrelated question" 5 false false None = Some (inr []))
    by (vm_compute; reflexivity).
  assert (H2 : WebSearch.search no_hits 3 "what's the weather today" (Some 3%nat) = [])
    by (vm_compute; reflexivity).
  split; [split; [exact H1 | exact H2]|]. split.
  - exact (proj1 (empty_result_canned lower unit_cosine_distance seq_scan length_encoder embed_axis
                    failing_llm no_hits two_decimals [] full_system
                    "random unrelated question" (Some "c1") 5 false false false None
                    world0) H1).
  - exact (proj2 (empty_result_canned lower unit_cosine_distance seq_scan length_encoder embed_axis
                    failing_llm no_hits two_decimals [] full_system
                    "what's the weather today" (Some "c1") 5 false false false None
                    world0) 3%nat eq_refl H2).
Defined.

(** The theorem of C9 on the fixtures: a rag query on an empty table
    leaves the store unchanged. *)
Lemma conversation_persistence_witness :
  rag_retrieve unit_cosine_distance seq_scan embed_axis [] "random unrelated question" 5 true true
    None = Some (inr [])
  /\ redis (_answer_with_rag unit_cosine_distance seq_scan length_encoder embed_axis echo_llm
              two_decimals [] full_system "random unrelated question" (Some "c1") 5 true
              true false None world0).2
     = redis world0.
Proof.
  assert (H : rag_retrieve unit_cosine_distance seq_scan embed_axis []
                "random unrelated question" 5 true true None = Some (inr []))
    by (vm_compute; reflexivity).
  split; [exact H|].
  exact (proj1 (proj2 (conversation_persistence lower unit_cosine_distance seq_scan length_encoder
                         embed_axis echo_llm no_hits two_decimals [] full_system
                         "random unrelated question" (Some "c1") 5 true true false None
                         world0)) H).
Defined.

End OrchestratorInstances.

(** * Further properties *)

(** ** Maintenance of the vector store *)

Section StoreOpsFacts.
Import VectorStore StoreOps.
Variable gen_random_uuid : list row -> N.

(** The content of a stored row, as the chunk it was inserted from. *)
Local Abbreviation as_chunk :=
  (fun r => mkChunk (row_content r) (row_metadata r) (row_embedding r)).

Lemma insert_rows_inr (vector_size : nat) (chunks : list chunk) (table table' : list row) :
  insert_rows gen_random_uuid vector_size chunks table = inr table' ->
  Forall (fun c => length (chunk_embedding c) = vector_size) chunks
  /\ exists news,
       table' = table ++ news
       /\ map as_chunk news = chunks
       /\ (NoDup (map row_id table) -> NoDup (map row_id table')).
Proof.
  revert table. induction chunks as [|c chunks IH]; intros table; simpl.
  - intros [= <-]. split; [constructor|]. exists []. rewrite app_nil_r. auto.
  - destruct (_ && bool_decide _) eqn:Hok; [|discriminate].
    apply andb_true_iff in Hok as [_ Hdim]. apply bool_decide_eq_true in Hdim.
    case_bool_decide as Hid; [discriminate|].
    intros H. apply IH in H as (Hall & news & -> & Hnews & Hnd).
    split; [constructor; assumption|].
    eexists (_ :: news). split; [rewrite <- app_assoc; reflexivity|].
    split; [simpl; rewrite Hnews; destruct c; reflexivity|].
    intros Hnd0. apply Hnd. rewrite map_app. simpl.
    apply NoDup_app. split; [exact Hnd0|]. split.
    + intros x Hx Hin. apply list_elem_of_In in Hin. destruct Hin as [Heq|[]].
      simpl in Heq. subst x. exact (Hid Hx).
    + apply NoDup_singleton.
Qed.

Lemma insert_rows_inl (vector_size : nat) (chunks : list chunk) (table : list row) :
  Exists (fun c => length (chunk_embedding c) <> vector_size) chunks ->
  exists e, insert_rows gen_random_uuid vector_size chunks table = inl e.
Proof.
  intros H. revert table. induction H as [c chunks Hc | c chunks _ IH]; intros table; simpl.
  - rewrite bool_decide_eq_false_2 by exact Hc. rewrite andb_false_r. eauto.
  - destruct (_ && bool_decide _); [|eauto]. case_bool_decide; eauto.
Qed.

(** X1. A successful [insert_chunks] returns the number of chunks and appends
    one row per chunk, in order, with the chunk's content, metadata and
    embedding, behind the rows already stored (identical content is
    stored again); every embedding had the dimension of the column, and
    the total count grows by the number returned. *)
Theorem insert_chunks_appends (vector_size : nat) (chunks : list chunk)
    (table table' : list row) (n : nat) :
  insert_chunks gen_random_uuid vector_size chunks table = (inr n, table') ->
  n = length chunks
  /\ Forall (fun c => length (chunk_embedding c) = vector_size) chunks
  /\ (exists news, table' = table ++ news /\ map as_chunk news = chunks)
  /\ count_chunks None table' = (count_chunks None table + n)%nat.
Proof.
  unfold insert_chunks.
  destruct (insert_rows _ _ _ _) as [e|t] eqn:E; [discriminate|].
  intros [= <- <-].
  apply insert_rows_inr in E as (Hall & news & -> & Hnews & _).
  split; [reflexivity|]. split; [exact Hall|]. split; [eauto|].
  simpl. rewrite length_app, <- Hnews, length_map. reflexivity.
Qed.

(** X2. One embedding of the wrong dimension anywhere in the batch makes
    [insert_chunks] raise, and the table is left as it was: the chunks
    before the offending one are not kept. *)
Theorem insert_chunks_atomic (vector_size : nat) (chunks : list chunk) (table : list row) :
  Exists (fun c => length (chunk_embedding c) <> vector_size) chunks ->
  exists e, insert_chunks gen_random_uuid vector_size chunks table = (inl e, table).
Proof.
  intros H. unfold insert_chunks.
  destruct (insert_rows_inl vector_size chunks table H) as [e ->]. eauto.
Qed.

(** X4. Whatever its outcome, [insert_chunks] keeps the ids of the table
    pairwise distinct. *)
Theorem insert_chunks_unique_ids (vector_size : nat) (chunks : list chunk)
    (table : list row) :
  NoDup (map row_id table) ->
  NoDup (map row_id (insert_chunks gen_random_uuid vector_size chunks table).2).
Proof.
  intros Hnd. unfold insert_chunks.
  destruct (insert_rows _ _ _ _) as [e|t] eqn:E; simpl; [exact Hnd|].
  apply insert_rows_inr in E as (_ & news & _ & _ & H). exact (H Hnd).
Qed.

End StoreOpsFacts.

Section StoreMaintenance.
Import VectorStore StoreOps.

Lemma NoDup_omap {A B : Type} (f : A -> option B) (l : list A) :
  (forall x y z, f x = Some z -> f y = Some z -> x = y) ->
  NoDup l -> NoDup (omap f l).
Proof.
  intros Hinj. induction 1 as [|x l Hx Hl IH]; simpl; [constructor|].
  destruct (f x) as [z|] eqn:E; [|exact IH].
  constructor; [|exact IH].
  intros (y & Hy & Hfy)%list_elem_of_omap.
  rewrite (Hinj x y z E Hfy) in Hx. exact (Hx Hy).
Qed.

Lemma filter_other_document (f g : string) (table : list row) :
  g <> f ->
  filter (of_document g) (filter (fun r => ~ of_document f r) table)
  = filter (of_document g) table.
Proof.
  intros Hne. rewrite list_filter_filter. apply list_filter_iff.
  intros r. unfold of_document. split; [tauto|].
  intros H. split; [exact H|]. rewrite H. intros [= ->]. exact (Hne eq_refl).
Qed.

(** X5. For a non-empty filename, [delete_document] returns what
    [count_chunks] counted for it, afterwards [count_chunks] finds no
    chunk of it and [get_all_documents] does not list it, and the total
    count has dropped by the number returned. *)
Theorem delete_document_removes (collate_le : string -> string -> bool)
    (filename : string) (table : list row) :
  filename <> "" ->
  (delete_document filename table).1 = count_chunks (Some filename) table
  /\ count_chunks (Some filename) (delete_document filename table).2 = O
  /\ (filename ∉ get_all_documents collate_le (delete_document filename table).2)
  /\ ((delete_document filename table).1
      + count_chunks None (delete_document filename table).2
      = count_chunks None table)%nat.
Proof.
  intros Hne. unfold delete_document, count_chunks. simpl.
  rewrite !bool_decide_eq_false_2 by exact Hne.
  assert (Hgone : filter (of_document filename)
                    (filter (fun r => ~ of_document filename r) table) = []).
  { rewrite list_filter_filter. induction table as [|r table IH]; [reflexivity|].
    rewrite filter_cons. case_decide; [tauto | exact IH]. }
  split; [reflexivity|]. split; [rewrite Hgone; reflexivity|]. split.
  - unfold get_all_documents.
    intros (o & Ho & Hf)%list_elem_of_omap.
    rewrite stable_sort_Permutation, elem_of_remove_dups in Ho.
    apply list_elem_of_In, in_map_iff in Ho as (r & <- & Hr).
    destruct (get_text (row_metadata r) "filename") as [s|] eqn:E; [|discriminate].
    case_bool_decide; [discriminate|]. injection Hf as ->.
    apply list_elem_of_In, list_elem_of_filter in Hr as [Hnot _].
    exact (Hnot E).
  - rewrite <- !length_app.
    apply Permutation_length, filter_app_complement.
Qed.

(** X6. [delete_document] leaves the chunks of every other document as they
    were, in their order, so their counts do not change, and it keeps the
    ids of the table pairwise distinct. *)
Theorem delete_document_frame (filename other : string) (table : list row) :
  other <> filename ->
  filter (of_document other) (delete_document filename table).2
  = filter (of_document other) table
  /\ (other <> "" ->
      count_chunks (Some other) (delete_document filename table).2
      = count_chunks (Some other) table)
  /\ (NoDup (map row_id table) ->
      NoDup (map row_id (delete_document filename table).2)).
Proof.
  intros Hne. unfold delete_document. simpl. split; [|split].
  - apply filter_other_document, Hne.
  - intros Hother. unfold count_chunks.
    rewrite !bool_decide_eq_false_2 by exact Hother.
    rewrite filter_other_document by exact Hne. reflexivity.
  - intros Hnd. eapply NoDup_map_submseteq; [|exact Hnd].
    apply sublist_submseteq, sublist_filter.
Qed.

(** X7. [get_all_documents] lists exactly the non-empty filenames (as text)
    that some stored chunk carries, each once, whatever the collation;
    so every listed document has at least one chunk for [count_chunks]. *)
Theorem get_all_documents_spec (collate_le : string -> string -> bool)
    (table : list row) :
  (forall f,
     f ∈ get_all_documents collate_le table
     <-> f <> "" /\ exists r, r ∈ table /\ of_document f r)
  /\ NoDup (get_all_documents collate_le table)
  /\ (forall f,
        f ∈ get_all_documents collate_le table ->
        (1 <= count_chunks (Some f) table)%nat).
Proof.
  assert (Hiff : forall f,
     f ∈ get_all_documents collate_le table
     <-> f <> "" /\ exists r, r ∈ table /\ of_document f r).
  { intros f. unfold get_all_documents. rewrite list_elem_of_omap. split.
    - intros (o & Ho & Hf).
      rewrite stable_sort_Permutation, elem_of_remove_dups in Ho.
      apply list_elem_of_In, in_map_iff in Ho as (r & <- & Hr).
      destruct (get_text (row_metadata r) "filename") as [s|] eqn:E; [|discriminate].
      case_bool_decide; [discriminate|]. injection Hf as ->.
      split; [assumption|]. exists r. split; [apply list_elem_of_In, Hr | exact E].
    - intros (Hne & r & Hr & Hof). exists (Some f). split.
      + rewrite stable_sort_Permutation, elem_of_remove_dups.
        apply list_elem_of_In, in_map_iff. exists r.
        split; [exact Hof | apply list_elem_of_In, Hr].
      + rewrite bool_decide_eq_false_2 by exact Hne. reflexivity. }
  split; [exact Hiff|]. split.
  - unfold get_all_documents. apply NoDup_omap.
    + intros [x|] [y|] z Hx Hy; try discriminate.
      repeat case_bool_decide; try discriminate. congruence.
    + rewrite stable_sort_Permutation. apply NoDup_remove_dups.
  - intros f (Hne & r & Hr & Hof)%Hiff. unfold count_chunks.
    rewrite bool_decide_eq_false_2 by exact Hne.
    assert (Hin : r ∈ filter (of_document f) table)
      by (apply list_elem_of_filter; auto).
    destruct (filter (of_document f) table); [inversion Hin | simpl; lia].
Qed.

End StoreMaintenance.

(** ** Searching the store *)

Section SearchFacts.
Import VectorStore StoreOps.
Variable cosine_distance : vector -> vector -> Q.
Variable probed : list row -> vector -> row -> bool.

(** The scored chunk returned for a stored row. *)
Local Abbreviation hit q :=
  (fun r => (dict_of_row (select_list cosine_distance q r),
             1 - cosine_distance (row_embedding r) q)).

Lemma StronglySorted_app_inv {A : Type} (R : A -> A -> Prop) (l1 l2 : list A) :
  StronglySorted R (l1 ++ l2) -> forall x y, x ∈ l1 -> y ∈ l2 -> R x y.
Proof.
  induction l1 as [|a l1 IH]; intros H x y Hx Hy; [inversion Hx|].
  simpl in H. apply StronglySorted_inv in H as [H1 H2].
  apply elem_of_cons in Hx as [->|Hx]; [|exact (IH H1 x y Hx Hy)].
  rewrite Forall_forall in H2. apply H2, elem_of_app. right. exact Hy.
Qed.

Lemma filter_no_where (rows : list row) :
  filter (fun r => where_clause None r = true) rows = rows.
Proof.
  induction rows as [|r rows IH]; [reflexivity|].
  rewrite filter_cons. case_decide as H; [rewrite IH; reflexivity|].
  destruct H. reflexivity.
Qed.

(** The rows the scan reaches split into those the [LIMIT] keeps and
    those it drops, none of the dropped nearer to the query than a kept
    one. *)
Lemma select_similar_split (table : list row) (q : vector) (k : nat) :
  exists kept dropped,
    index_scan probed table q ≡ₚ kept ++ dropped
    /\ select_similar cosine_distance probed table q None q k
       = map (select_list cosine_distance q) kept
    /\ length kept = Nat.min k (length (index_scan probed table q))
    /\ (forall x y, x ∈ kept -> y ∈ dropped ->
        cosine_distance (row_embedding x) q <= cosine_distance (row_embedding y) q).
Proof.
  unfold select_similar. rewrite filter_no_where.
  set (reached := index_scan probed table q).
  set (key := fun r : row => cosine_distance (row_embedding r) q).
  exists (take k (order_by key reached)), (drop k (order_by key reached)).
  rewrite take_drop. unfold order_by.
  split; [symmetry; apply stable_sort_Permutation|]. split; [reflexivity|].
  split; [rewrite length_take, stable_sort_length; reflexivity|].
  intros x y Hx Hy.
  eapply (StronglySorted_app_inv (fun a b => key a <= key b));
    [|exact Hx | exact Hy].
  rewrite take_drop. apply stable_sort_sorted.
  - intros a b H. apply Qle_bool_iff in H. exact H.
  - intros a b H. apply Qle_bool_false in H. apply Qlt_le_weak, H.
  - intros a b c H1 H2. eapply Qle_trans; eassumption.
Qed.

(** X8. Called without a filter, [similarity_search] returns the [k]
    nearest of the chunks the scan reaches: exactly [min k v] of these [v]
    chunks, each once, and no reached chunk left out is nearer to the
    query than a returned one; with [k >= v] it returns all of them.  A
    chunk the scan does not reach is not returned, however near it is. *)
Theorem similarity_search_top_k (table : list row) (q : vector) (k : nat)
    (flt : option metadata_t) :
  filter_given flt = false ->
  exists kept dropped,
    index_scan probed table q ≡ₚ kept ++ dropped
    /\ similarity_search cosine_distance probed table q k flt = inr (map (hit q) kept)
    /\ length kept = Nat.min k (length (index_scan probed table q))
    /\ (forall x y, x ∈ kept -> y ∈ dropped ->
        cosine_distance (row_embedding x) q <= cosine_distance (row_embedding y) q)
    /\ ((length (index_scan probed table q) <= k)%nat -> dropped = []).
Proof.
  intros Hflt.
  destruct (select_similar_split table q k) as (kept & dropped & Hp & Hs & Hl & Ho).
  exists kept, dropped. split; [exact Hp|]. split.
  - unfold similarity_search. rewrite (fetch_no_filter _ _ _ _ _ _ Hflt), Hs, map_map.
    reflexivity.
  - split; [exact Hl|]. split; [exact Ho|]. intros Hk.
    apply Permutation_length in Hp. rewrite length_app in Hp.
    destruct dropped; [reflexivity | simpl in Hp; lia].
Qed.

(** X9. With a filter that is not empty both searches raise, whatever the
    table, the query vector and the limits: the filter is passed first,
    where the statement expects the query vector.  No chunk is returned,
    and no empty list either when no chunk would match. *)
Theorem search_filter_raises (table : list row) (q : vector) (k fetch_k : nat)
    (lambda : Q) (flt : metadata_t) :
  flt <> ∅ ->
  similarity_search cosine_distance probed table q k (Some flt) = inl BadParameter
  /\ mmr_search cosine_distance probed table q k lambda fetch_k (Some flt)
     = Some (inl BadParameter).
Proof.
  intros Hne.
  assert (Hg : filter_given (Some flt) = true).
  { simpl. rewrite bool_decide_eq_false_2 by exact Hne. reflexivity. }
  unfold similarity_search, mmr_search, fetch. rewrite Hg. split; reflexivity.
Qed.

(** The length of a greedy selection. *)
Lemma greedy_length (k : nat) (lambda : Q) (selected remaining final : list srow) :
  Spec.greedy k lambda selected remaining final ->
  length final
  = if (k <=? length selected)%nat then length selected
    else Nat.min k (length selected + length remaining).
Proof.
  induction 1 as [selected remaining Hd | selected pre best post final score Hk _ _ _ IH].
  - destruct (k <=? length selected)%nat eqn:E; [reflexivity|].
    apply Nat.leb_gt in E. destruct Hd as [Hd | ->]; [lia | simpl; lia].
  - rewrite IH. rewrite !length_app. simpl.
    destruct (k <=? length selected)%nat eqn:E1; [apply Nat.leb_le in E1; lia|].
    destruct (k <=? length selected + 1)%nat eqn:E2.
    + apply Nat.leb_le in E2. lia.
    + apply Nat.leb_gt in E2. lia.
Qed.

(** X11. Called without a filter, [mmr_search] returns exactly [min k c]
    results, [c] the number of candidates its fetch brought (at most
    [fetch_k], and at most the size of the table); the results are
    candidates of that fetch, each used at most once; and for [k >= 1]
    the first result is the first, nearest candidate. *)
Theorem mmr_search_from_fetch (table : list row) (q : vector) (k : nat) (lambda : Q)
    (fetch_k : nat) (flt : option metadata_t) :
  filter_given flt = false ->
  exists candidates res,
    fetch cosine_distance probed table q fetch_k flt = inr candidates
    /\ mmr_search cosine_distance probed table q k lambda fetch_k flt = Some (inr res)
    /\ length res = Nat.min k (length candidates)
    /\ (length candidates <= Nat.min fetch_k (length table))%nat
    /\ res ⊆+ map (fun d => (chunk_of_row d, similarity d)) candidates
    /\ ((1 <= k)%nat ->
        head res = head (map (fun d => (chunk_of_row d, similarity d)) candidates)).
Proof.
  intros Hflt. unfold mmr_search.
  rewrite (fetch_no_filter _ _ _ _ _ _ Hflt).
  set (candidates := select_similar cosine_distance probed table q None q fetch_k).
  assert (Hlen : (length candidates <= Nat.min fetch_k (length table))%nat).
  { destruct (select_similar_rows cosine_distance probed table q fetch_k None)
      as (rows & Hs & Hsub & _ & Hl).
    unfold candidates. rewrite Hs, length_map.
    apply submseteq_length in Hsub. lia. }
  exists candidates.
  destruct candidates as [|first rest] eqn:Ec.
  { exists []. simpl. rewrite take_nil, Nat.min_0_r.
    split; [reflexivity|]. split; [reflexivity|]. split; [reflexivity|].
    split; [exact Hlen|]. split; [constructor | reflexivity]. }
  destruct (mmr_loop_greedy (length rest) k lambda [first] rest)
    as (final & Hrun & Hgreedy); [discriminate | lia |].
  simpl. rewrite Hrun. simpl. eexists. split; [reflexivity|]. split; [reflexivity|].
  pose proof (greedy_length _ _ _ _ _ Hgreedy) as Hfl.
  apply greedy_selection in Hgreedy as (picked & -> & Hsub & _).
  split; [|split; [exact Hlen|split]].
  - rewrite length_map, length_take, Hfl. simpl.
    destruct (k <=? 1)%nat eqn:E; [apply Nat.leb_le in E | apply Nat.leb_gt in E]; lia.
  - assert (Hs : take k ([first] ++ picked) ⊆+ first :: rest).
    { transitivity ([first] ++ picked); [apply sublist_submseteq, sublist_take|].
      simpl. apply submseteq_skip, Hsub. }
    exact (fmap_submseteq (fun d => (chunk_of_row d, similarity d)) _ _ Hs).
  - intros Hk. destruct k as [|k]; [lia|]. reflexivity.
Qed.

(** X12. When [k] is at least the number of fetched candidates, [mmr_search]
    returns all of them, each once: it only reorders what
    [similarity_search] returns for [k = fetch_k]. *)
Theorem mmr_search_reorders (table : list row) (q : vector) (k : nat) (lambda : Q)
    (fetch_k : nat) (flt : option metadata_t) (candidates : list srow) :
  fetch cosine_distance probed table q fetch_k flt = inr candidates ->
  (length candidates <= k)%nat ->
  exists res found,
    mmr_search cosine_distance probed table q k lambda fetch_k flt = Some (inr res)
    /\ similarity_search cosine_distance probed table q fetch_k flt = inr found
    /\ res ≡ₚ map (fun p => (Spec.chunk_of p.1, p.2)) found.
Proof.
  intros Hfetch Hk. unfold mmr_search, similarity_search. rewrite Hfetch.
  destruct (mmr_select_total k lambda candidates) as [selected Hsel].
  rewrite Hsel. simpl. eexists _, _. split; [reflexivity|]. split; [reflexivity|].
  rewrite map_map. simpl.
  change (map ?f ?l) with (f <$> l).
  apply fmap_Permutation.
  pose proof (mmr_select_submseteq _ _ _ _ Hsel) as Hsub.
  assert (Hfull : (length candidates <= length selected)%nat).
  { destruct candidates as [|first rest] eqn:Ec; [simpl; lia|].
    simpl in Hsel.
    destruct (mmr_loop_greedy (length rest) k lambda [first] rest)
      as (final & Hrun & Hgreedy); [discriminate | lia |].
    rewrite Hsel in Hrun. injection Hrun as <-.
    apply greedy_length in Hgreedy. rewrite Hgreedy. simpl in *.
    destruct (k <=? 1)%nat eqn:E; [apply Nat.leb_le in E | apply Nat.leb_gt in E]; lia. }
  rewrite take_ge by (apply submseteq_length in Hsub; lia).
  apply submseteq_length_Permutation; assumption.
Qed.

End SearchFacts.

(** ** Reranking *)

Section RerankMore.
Import VectorStore Reranker.
Variable cross_encoder : string -> string -> Q.

(** The candidates with their new scores, in input order. *)
Local Abbreviation rescored query :=
  (map (fun d : doc * Q => (d.1, cross_encoder query (doc_content d.1)))).

Lemma rerank_unfold (query : string) (documents : list (doc * Q)) (top_k : nat) :
  rerank cross_encoder query documents top_k
  = take top_k (Py.sort_desc snd (rescored query documents)).
Proof.
  destruct documents as [|d ds]; [simpl; rewrite take_nil; reflexivity|].
  unfold rerank. rewrite rerank_scores. reflexivity.
Qed.

(** X13. [rerank] keeps the best: the candidates it leaves out score no higher
    than any candidate it returns, and kept and left out together are the
    candidates, each once. *)
Theorem rerank_top_k (query : string) (documents : list (doc * Q)) (top_k : nat) :
  exists dropped,
    rescored query documents
    ≡ₚ rerank cross_encoder query documents top_k ++ dropped
    /\ forall x y,
         x ∈ rerank cross_encoder query documents top_k -> y ∈ dropped -> y.2 <= x.2.
Proof.
  rewrite rerank_unfold.
  exists (drop top_k (Py.sort_desc snd (rescored query documents))).
  rewrite take_drop. split.
  - unfold Py.sort_desc. symmetry. apply stable_sort_Permutation.
  - intros x y Hx Hy.
    eapply (StronglySorted_app_inv (fun a b : doc * Q => b.2 <= a.2));
      [|exact Hx | exact Hy].
    rewrite take_drop. apply sort_desc_sorted.
Qed.

Lemma stable_sort_sorted_id {A : Type} (before : A -> A -> bool) (R : A -> A -> Prop)
    (l : list A) :
  (forall x y, R x y -> before x y = true) ->
  StronglySorted R l -> Py.stable_sort before l = l.
Proof.
  intros HR. induction 1 as [|x l Hl IH Hx]; [reflexivity|].
  simpl. rewrite IH. destruct l as [|y l]; [reflexivity|]. simpl.
  apply Forall_inv in Hx. rewrite (HR x y Hx). reflexivity.
Qed.

(** X14. Reranking the output of [rerank] again, for the same query and
    [top_k], returns it unchanged. *)
Theorem rerank_idempotent (query : string) (documents : list (doc * Q)) (top_k : nat) :
  rerank cross_encoder query (rerank cross_encoder query documents top_k) top_k
  = rerank cross_encoder query documents top_k.
Proof.
  rewrite (rerank_unfold query (rerank _ _ _ _)).
  set (res := rerank cross_encoder query documents top_k).
  assert (Hscore : rescored query res = res).
  { assert (H : Forall (fun p => p.2 = cross_encoder query (doc_content p.1)) res).
    { unfold res. rewrite rerank_unfold. apply Forall_forall. intros p Hp.
      apply (subseteq_take top_k) in Hp.
      unfold Py.sort_desc in Hp. rewrite stable_sort_Permutation in Hp.
      apply list_elem_of_In, in_map_iff in Hp as (d & <- & _). reflexivity. }
    induction H as [|[d s] res' Hp _ IH]; [reflexivity|].
    simpl in *. rewrite IH, <- Hp. reflexivity. }
  rewrite Hscore. unfold Py.sort_desc.
  rewrite (stable_sort_sorted_id _ (fun a b : doc * Q => b.2 <= a.2)).
  - apply take_ge. unfold res. rewrite rerank_length. lia.
  - intros x y H. apply Qle_bool_iff. exact H.
  - unfold res. rewrite rerank_unfold. apply StronglySorted_take, sort_desc_sorted.
Qed.

Lemma filter_insert_by {A : Type} (key : A -> Q) (v : Q) (x : A) (l : list A) :
  filter (fun p => Qeq_bool (key p) v = true)
         (Py.insert_by (fun a b => Qle_bool (key b) (key a)) x l)
  = filter (fun p => Qeq_bool (key p) v = true) (x :: l).
Proof.
  induction l as [|y l IH]; [reflexivity|]. simpl.
  destruct (Qle_bool (key y) (key x)) eqn:E; [reflexivity|].
  apply Qle_bool_false in E.
  rewrite (filter_cons _ y), IH, !filter_cons.
  repeat case_decide; try reflexivity.
  exfalso.
  repeat match goal with H : Qeq_bool _ _ = true |- _ => apply Qeq_bool_iff in H end.
  lra.
Qed.

Lemma filter_sort_desc {A : Type} (key : A -> Q) (v : Q) (l : list A) :
  filter (fun p => Qeq_bool (key p) v = true) (Py.sort_desc key l)
  = filter (fun p => Qeq_bool (key p) v = true) l.
Proof.
  unfold Py.sort_desc. induction l as [|x l IH]; [reflexivity|]. simpl.
  rewrite filter_insert_by, !filter_cons, IH. reflexivity.
Qed.

(** X15. The sort of [rerank] is stable: for every score, the returned
    candidates with that new score are the first input candidates with
    that score, in their input order. *)
Theorem rerank_stable (query : string) (documents : list (doc * Q)) (top_k : nat)
    (v : Q) :
  filter (fun p => Qeq_bool p.2 v = true) (rerank cross_encoder query documents top_k)
  `prefix_of` filter (fun p => Qeq_bool p.2 v = true) (rescored query documents).
Proof.
  rewrite rerank_unfold.
  rewrite <- (filter_sort_desc snd v (rescored query documents)).
  set (sorted := Py.sort_desc snd (rescored query documents)).
  rewrite <- (take_drop top_k sorted) at 2. rewrite filter_app.
  apply prefix_app_r. reflexivity.
Qed.

End RerankMore.

(** ** Conversation history *)

Section ConversationFacts.
Import Conversation ConversationOps.

Lemma key_of_inj (a b : string) : key_of a = key_of b -> a = b.
Proof. unfold key_of. simpl. intros [= H]. exact H. Qed.

Lemma history_after_add (now : nat) (cid role content : string)
    (md : option msg_metadata) (db : redis_t) :
  get_history (add_message now cid role content md db) cid 0
  = get_history db cid 0 ++ [mkMessage role content now (default no_metadata md)].
Proof.
  unfold get_history, add_message. rewrite lookup_insert_eq. reflexivity.
Qed.

(** X16. Add and read back: after [add_message], the full history of that
    conversation is the old one followed by the new message (role and
    content as given, metadata [{}] when none was given); the new message
    is the last entry of [get_history] for every limit; the histories of
    other conversations are unchanged. *)
Theorem history_round_trip (now : nat) (cid role content : string)
    (md : option msg_metadata) (db : redis_t) :
  let db' := add_message now cid role content md db in
  let message := mkMessage role content now (default no_metadata md) in
  get_history db' cid 0 = get_history db cid 0 ++ [message]
  /\ (forall limit, last (get_history db' cid limit) = Some message)
  /\ (forall other limit,
        other <> cid -> get_history db' other limit = get_history db other limit).
Proof.
  cbv zeta. split; [apply history_after_add|]. split.
  - intros limit. unfold get_history, add_message. rewrite lookup_insert_eq. simpl.
    set (old := default [] (db !! key_of cid)).
    destruct limit as [|n]; [apply last_snoc|].
    rewrite length_app. simpl.
    replace (length old + 1 - S n)%nat with (length old - n)%nat by lia.
    rewrite drop_app.
    replace (length old - n - length old)%nat with O by lia. simpl.
    rewrite last_snoc. reflexivity.
  - intros other limit Hne. unfold get_history, add_message.
    rewrite lookup_insert_ne; [reflexivity|].
    intros H. apply key_of_inj in H. congruence.
Qed.

(** X17. [get_history] returns the last [limit] messages, oldest first: a
    suffix of the stored list of length [min limit n].  The limit [0] is
    the exception: it returns the whole list (the range starts at [-0]),
    so no limit returns more than [0] does. *)
Theorem get_history_window (db : redis_t) (cid : string) (limit : nat) :
  get_history db cid limit `suffix_of` default [] (db !! key_of cid)
  /\ ((1 <= limit)%nat ->
      length (get_history db cid limit)
      = Nat.min limit (length (default [] (db !! key_of cid))))
  /\ get_history db cid 0 = default [] (db !! key_of cid)
  /\ (length (get_history db cid limit) <= length (get_history db cid 0))%nat.
Proof.
  unfold get_history. set (entries := default [] (db !! key_of cid)).
  destruct limit as [|n].
  - split; [reflexivity|]. split; [lia|]. split; [reflexivity | lia].
  - split; [apply suffix_drop|]. split; [intros _; rewrite length_drop; lia|].
    split; [reflexivity|]. rewrite length_drop. lia.
Qed.

(** X18. [clear_history] empties the history of its conversation and leaves
    the other conversations as they were. *)
Theorem clear_history_effect (cid : string) (db : redis_t) :
  (forall limit, get_history (clear_history cid db) cid limit = [])
  /\ (forall other limit,
        other <> cid ->
        get_history (clear_history cid db) other limit = get_history db other limit)
  /\ key_of cid ∉ keys (clear_history cid db).
Proof.
  unfold clear_history, get_history. split; [|split].
  - intros limit. rewrite lookup_delete_eq. simpl. destruct limit; reflexivity.
  - intros other limit Hne. rewrite lookup_delete_ne; [reflexivity|].
    intros H. apply key_of_inj in H. congruence.
  - unfold keys. intros [_ H]%list_elem_of_filter.
    apply list_elem_of_In, in_map_iff in H as ([k v] & Hk & Hkv). simpl in Hk. subst k.
    apply list_elem_of_In, elem_of_map_to_list in Hkv.
    rewrite lookup_delete_eq in Hkv. discriminate.
Qed.

Lemma replace_from_absent (old new s : string) :
  Py.contains s old = false -> replace_from old new 0 s = s.
Proof.
  induction s as [|c s IH]; [reflexivity|]. simpl Py.contains.
  intros [H1 H2]%orb_false_iff. cbn [replace_from]. rewrite H1, (IH H2). reflexivity.
Qed.

Lemma replace_from_skip (old new pre s : string) :
  replace_from old new (String.length pre) (pre +:+ s) = replace_from old new 0 s.
Proof. induction pre as [|c pre IH]; [reflexivity|]. simpl. exact IH. Qed.

(** A key loses its prefix in the listing, and the scan goes on in the id. *)
Lemma replace_key (cid : string) :
  replace (key_of cid) "conversation:" "" = replace_from "conversation:" "" 0 cid.
Proof.
  unfold replace, key_of. simpl.
  exact (replace_from_skip "conversation:" "" "onversation:" cid).
Qed.

(** X19. A conversation whose id does not contain the text "conversation:"
    is listed under its id once it has a message. *)
Theorem list_conversations_lists (now : nat) (cid role content : string)
    (md : option msg_metadata) (db : redis_t) :
  Py.contains cid "conversation:" = false ->
  cid ∈ list_conversations (add_message now cid role content md db).
Proof.
  intros Hcid. unfold list_conversations.
  apply list_elem_of_In, in_map_iff. exists (key_of cid). split.
  - rewrite replace_key. apply replace_from_absent, Hcid.
  - apply list_elem_of_In. unfold keys. apply list_elem_of_filter. split.
    + reflexivity.
    + apply list_elem_of_In, in_map_iff.
      eexists (key_of cid, _). split; [reflexivity|].
      apply list_elem_of_In, elem_of_map_to_list. unfold add_message.
      apply lookup_insert_eq.
Qed.

(** X20. The listing does not give ids back in general: the text
    "conversation:" is removed everywhere in the key, so an id that
    begins with it is listed like the id without that beginning. *)
Theorem list_conversations_strips (now : nat) (inner role content : string)
    (md : option msg_metadata) :
  list_conversations (add_message now ("conversation:" +:+ inner) role content md ∅)
  = list_conversations (add_message now inner role content md ∅)
  /\ list_conversations (add_message now inner role content md ∅)
     = [replace inner "conversation:" ""].
Proof.
  assert (H : forall cid, list_conversations (add_message now cid role content md ∅)
                          = [replace (key_of cid) "conversation:" ""]).
  { intros cid. unfold list_conversations, keys, add_message.
    rewrite insert_empty, map_to_list_singleton. reflexivity. }
  rewrite !H. split; [reflexivity | rewrite replace_key; reflexivity].
Qed.

End ConversationFacts.

(** ** The orchestrator, further *)

Section RagMore.
Import VectorStore Conversation RAG.
Variable str_lower : string -> string.
Variable cosine_distance : vector -> vector -> Q.
Variable probed : list row -> vector -> row -> bool.
Variable cross_encoder : string -> string -> Q.
Variable embed_text : string -> vector.
Variable chat_completion : llm_request -> option llm_response.
Variable ddgs_text : string -> nat -> option (list WebSearch.ddg_hit).
Variable format_2f : Q -> string.
Variable table : list row.

Local Abbreviation route := (_route_to_tool str_lower).
Local Abbreviation retrieve := (rag_retrieve cosine_distance probed embed_text table).
Local Abbreviation answer_with_rag :=
  (_answer_with_rag cosine_distance probed cross_encoder embed_text chat_completion
     format_2f table).
Local Abbreviation answer_with_web_search :=
  (_answer_with_web_search chat_completion ddgs_text).
Local Abbreviation answer_directly := (_answer_directly chat_completion).
Local Abbreviation run_query :=
  (query str_lower cosine_distance probed cross_encoder embed_text chat_completion
     ddgs_text format_2f table).

Ltac run_path :=
  unfold bind, ret, raise, get_redis, llm_create, when, cm_add_message; simpl.

Ltac split_llm :=
  match goal with |- context [chat_completion ?r] =>
    destruct (chat_completion r) as [[text tokens]|] eqn:?E end.

Lemma route_cases (question : string) :
  route question = "direct_llm"
  \/ route question = "web_search"
  \/ route question = "rag".
Proof.
  unfold _route_to_tool.
  repeat match goal with |- context [if ?b then _ else _] => destruct b end; auto.
Qed.

(** The three paths of [query], by the router's answer. *)
Lemma query_paths (self : system) (question : string) (conversation_id : option string)
    (k : nat) (use_mmr use_rerank eco_mode : bool) (filter_document : option string) :
  (route question = "direct_llm"
   /\ run_query self question conversation_id k use_mmr use_rerank eco_mode filter_document
      = answer_directly self question conversation_id eco_mode)
  \/ (route question = "web_search"
      /\ run_query self question conversation_id k use_mmr use_rerank eco_mode
           filter_document
         = answer_with_web_search self question conversation_id eco_mode)
  \/ (route question = "rag"
      /\ run_query self question conversation_id k use_mmr use_rerank eco_mode
           filter_document
         = answer_with_rag self question conversation_id k use_mmr use_rerank eco_mode
             filter_document).
Proof.
  unfold query.
  destruct (route_cases question) as [H | [H | H]]; rewrite H; simpl; auto.
Qed.

(** X21. Whenever [query] returns a result, its [tool_used] is the tool the
    router chose for the question. *)
Theorem query_tool_used (self : system) (question : string)
    (conversation_id : option string) (k : nat) (use_mmr use_rerank eco_mode : bool)
    (filter_document : option string) (w w' : world) (r : query_result) :
  run_query self question conversation_id k use_mmr use_rerank eco_mode filter_document w
  = (inr r, w') ->
  tool_used r = route question.
Proof.
  destruct (query_paths self question conversation_id k use_mmr use_rerank eco_mode
              filter_document) as [[Hr ->] | [[Hr ->] | [Hr ->]]]; rewrite Hr.
  - unfold _answer_directly, format_for_llm. run_path.
    destruct (has_history self conversation_id); destruct eco_mode; simpl;
      split_llm; simpl; intros [= <- _]; reflexivity.
  - unfold _answer_with_web_search.
    destruct (web_search self); [|discriminate].
    destruct (WebSearch.search _ _ _ _); [intros [= <- _]; reflexivity|].
    run_path. split_llm; [|discriminate].
    destruct (has_history self conversation_id); simpl; intros [= <- _]; reflexivity.
  - unfold _answer_with_rag.
    destruct (retrieve _ _ _ _ _) as [[e|pool]|]; [discriminate| |discriminate].
    destruct (rag_rerank _ _ _ _ _ _); [intros [= <- _]; reflexivity|].
    run_path. split_llm; [|discriminate].
    destruct (has_history self conversation_id); simpl; intros [= <- _]; reflexivity.
Qed.

(** X22. With the web search tool disabled, a question routed to web search
    makes [query] raise (the tool is [None]); no LLM call is made and
    nothing is stored. *)
Theorem query_web_search_disabled (self : system) (question : string)
    (conversation_id : option string) (k : nat) (use_mmr use_rerank eco_mode : bool)
    (filter_document : option string) (w : world) :
  web_search self = None ->
  route question = "web_search" ->
  run_query self question conversation_id k use_mmr use_rerank eco_mode filter_document w
  = (inl AttributeError, w).
Proof.
  intros Hws Hr. unfold query. rewrite Hr. simpl.
  unfold _answer_with_web_search. rewrite Hws. reflexivity.
Qed.

(** X23. Without a conversation id (absent or empty), or in a system without
    conversation store, [query] never writes to the store. *)
Theorem query_stateless (self : system) (question : string)
    (conversation_id : option string) (k : nat) (use_mmr use_rerank eco_mode : bool)
    (filter_document : option string) (w : world) :
  conversation_id = None \/ conversation_id = Some "" \/ conversation_manager self = false ->
  redis (run_query self question conversation_id k use_mmr use_rerank eco_mode
           filter_document w).2
  = redis w.
Proof.
  intros Hc.
  assert (Hh : has_history self conversation_id = false).
  { destruct Hc as [-> | [-> | H]]; [reflexivity | reflexivity |].
    unfold has_history. rewrite H. destruct conversation_id; [apply andb_false_r|reflexivity]. }
  assert (Hp : forall run : (exn + query_result) * world,
             Spec.persistence chat_completion self conversation_id question w run.1 run.2 ->
             redis run.2 = redis w).
  { intros [[e|r] w']; simpl; [auto|]. rewrite Hh.
    intros [(-> & _) | (req & _ & _ & H)]; [reflexivity | exact H]. }
  apply Hp.
  destruct (query_paths self question conversation_id k use_mmr use_rerank eco_mode
              filter_document) as [[_ ->] | [[_ ->] | [_ ->]]].
  - apply persistence_directly.
  - apply persistence_web_search.
  - apply persistence_rag.
Qed.

Lemma string_length_app (a b : string) :
  String.length (a +:+ b) = (String.length a + String.length b)%nat.
Proof. induction a as [|c a IH]; simpl; [reflexivity | rewrite IH; reflexivity]. Qed.

Lemma str_take_length (n : nat) (s : string) : (String.length (Py.str_take n s) <= n)%nat.
Proof.
  revert s. induction n as [|n IH]; intros [|c s]; simpl; try lia.
  specialize (IH s). lia.
Qed.

(** What reaches the prompt on the rag path: chunks of the table that
    pass the document filter, at most [k] of them, or [2k] when reranking
    was requested of a system without reranker. *)
Lemma rag_results (self : system) (question : string) (k : nat)
    (use_mmr use_rerank : bool) (filter_document : option string)
    (pool : list (doc * Q)) :
  retrieve question k use_mmr use_rerank filter_document = Some (inr pool) ->
  Forall (fun p => exists r,
            r ∈ table
            /\ where_clause (filter_metadata_of filter_document) r = true
            /\ doc_content p.1 = row_content r
            /\ doc_metadata p.1 = row_metadata r)
         (rag_rerank cross_encoder self question k use_rerank pool)
  /\ (length (rag_rerank cross_encoder self question k use_rerank pool)
      <= if use_rerank && negb (reranker self) && negb use_mmr then k * 2 else k)%nat.
Proof.
  intros Hpool.
  set (flt := filter_metadata_of filter_document) in *.
  set (q := embed_text question) in *.
  assert (Hfetched : forall n candidates,
            fetch cosine_distance probed table q n flt = inr candidates ->
            (length candidates <= n)%nat
            /\ Forall (fun d => exists r,
                         r ∈ table /\ where_clause flt r = true
                         /\ VectorStore.content d = row_content r
                         /\ VectorStore.metadata d = row_metadata r)
                      candidates).
  { intros n candidates Hf. apply fetch_inr in Hf as [Hflt ->].
    destruct (select_similar_rows cosine_distance probed table q n None)
      as (rows & -> & Hrt & _ & Hl).
    split; [rewrite length_map; exact Hl|].
    apply List.Forall_map, Forall_forall. intros r Hr. exists r.
    split; [eapply elem_of_submseteq; eauto|].
    split; [apply where_clause_no_filter, Hflt | auto]. }
  assert (Hp : Forall (fun p : doc * Q => exists r,
            r ∈ table /\ where_clause flt r = true
            /\ doc_content p.1 = row_content r /\ doc_metadata p.1 = row_metadata r) pool
          /\ (length pool <= if use_mmr then k else if use_rerank then k * 2 else k)%nat).
  { unfold rag_retrieve in Hpool. fold flt q in Hpool. destruct use_mmr.
    - unfold mmr_search in Hpool.
      destruct (fetch _ _ _ _ _ _) as [e|candidates] eqn:Hf; [discriminate|].
      destruct (mmr_select _ _ _) as [selected|] eqn:Hsel; [|discriminate].
      simpl in Hpool. injection Hpool as <-.
      apply mmr_select_submseteq in Hsel.
      apply Hfetched in Hf as [_ Hall].
      split; [|rewrite length_map, length_take; lia].
      apply List.Forall_map, Forall_forall. intros d Hd.
      apply (subseteq_take k) in Hd. eapply elem_of_submseteq in Hd; [|exact Hsel].
      rewrite Forall_forall in Hall. exact (Hall d Hd).
    - injection Hpool as Hpool. unfold similarity_search in Hpool.
      destruct (fetch _ _ _ _ _ _) as [e|candidates] eqn:Hf; [discriminate|].
      injection Hpool as <-.
      apply Hfetched in Hf as [Hl Hall].
      split; [|rewrite length_map; destruct use_rerank; exact Hl].
      apply List.Forall_map. exact Hall. }
  destruct Hp as [Hall Hlen]. unfold rag_rerank.
  destruct (use_rerank && reranker self && negb (bool_decide (length pool = O))) eqn:C.
  - apply andb_true_iff in C as [C _]. apply andb_true_iff in C as [-> ->]. simpl.
    split; [|rewrite rerank_length; lia].
    apply Forall_forall. intros p Hp.
    rewrite rerank_unfold in Hp. apply (subseteq_take k) in Hp.
    unfold Py.sort_desc in Hp. rewrite stable_sort_Permutation in Hp.
    apply list_elem_of_In, in_map_iff in Hp as (d & <- & Hd). simpl.
    rewrite Forall_forall in Hall. apply Hall, list_elem_of_In, Hd.
  - split; [exact Hall|].
    destruct use_mmr; [destruct (use_rerank && negb (reranker self)); simpl; lia|].
    destruct use_rerank; [|simpl; lia].
    destruct (reranker self); simpl in *; [|lia].
    apply negb_false_iff, bool_decide_eq_true in C. lia.
Qed.

(** X24. The sources of a rag answer: at most [k] (at most [2k] when reranking
    was requested of a system without reranker, by similarity search);
    each one is a chunk of the table that passes the document filter,
    shown with its filename and with the first 200 characters of its
    content followed by "...", and carries no link. *)
Theorem rag_sources (self : system) (question : string)
    (conversation_id : option string) (k : nat) (use_mmr use_rerank eco_mode : bool)
    (filter_document : option string) (w w' : world) (r : query_result) :
  answer_with_rag self question conversation_id k use_mmr use_rerank eco_mode
    filter_document w = (inr r, w') ->
  (length (sources r)
   <= if use_rerank && negb (reranker self) && negb use_mmr then k * 2 else k)%nat
  /\ Forall (fun s => exists row,
               row ∈ table
               /\ where_clause (filter_metadata_of filter_document) row = true
               /\ src_content s = Py.str_take 200 (row_content row) +:+ "..."
               /\ (String.length (src_content s) <= 203)%nat
               /\ src_filename s = row_metadata row !! "filename"
               /\ src_link s = None)
            (sources r).
Proof.
  unfold _answer_with_rag.
  destruct (retrieve question k use_mmr use_rerank filter_document) as [[e|pool]|]
    eqn:Hpool; [discriminate| |discriminate].
  destruct (rag_results self question k use_mmr use_rerank filter_document pool Hpool)
    as [Hall Hlen].
  destruct (rag_rerank cross_encoder self question k use_rerank pool) as [|d ds] eqn:Hres.
  { intros [= <- _]. simpl. split; [lia | constructor]. }
  run_path. split_llm; [|discriminate].
  assert (Hs : forall l : list (doc * Q),
            Forall (fun p => exists r,
                      r ∈ table
                      /\ where_clause (filter_metadata_of filter_document) r = true
                      /\ doc_content p.1 = row_content r
                      /\ doc_metadata p.1 = row_metadata r) l ->
            Forall (fun s => exists row,
               row ∈ table
               /\ where_clause (filter_metadata_of filter_document) row = true
               /\ src_content s = Py.str_take 200 (row_content row) +:+ "..."
               /\ (String.length (src_content s) <= 203)%nat
               /\ src_filename s = row_metadata row !! "filename"
               /\ src_link s = None)
              (map (fun ds0 : doc * Q =>
                      mkSource (Py.str_take 200 (doc_content ds0.1) +:+ "...")
                               (doc_metadata ds0.1 !! "filename")
                               (doc_metadata ds0.1 !! "section") ds0.2 None) l)).
  { intros l Hl. apply List.Forall_map. eapply Forall_impl; [exact Hl|].
    intros p (row & Hrow & Hw & Hc & Hm). exists row.
    cbn [src_content src_filename src_link].
    rewrite Hc, Hm. repeat split; auto.
    rewrite string_length_app. pose proof (str_take_length 200 (row_content row)) as Ht.
    change (String.length "...") with 3%nat. lia. }
  destruct (has_history self conversation_id); simpl; intros [= <- _]; simpl;
    (split; [rewrite length_map; exact Hlen | apply (Hs (d :: ds) Hall)]).
Qed.

(** X25. With a document filter the rag path raises, whatever the
    question, the table and the retrieval options: the search of the
    vector store fails on its parameters.  No LLM call is made and nothing
    is stored; a query routed to the rag path raises the same. *)
Theorem rag_filter_raises (self : system) (question : string)
    (conversation_id : option string) (k : nat) (use_mmr use_rerank eco_mode : bool)
    (filename : string) (w : world) :
  filename <> "" ->
  answer_with_rag self question conversation_id k use_mmr use_rerank eco_mode
    (Some filename) w
  = (inl (DatabaseError BadParameter), w)
  /\ (route question = "rag" ->
      run_query self question conversation_id k use_mmr use_rerank eco_mode
        (Some filename) w
      = (inl (DatabaseError BadParameter), w)).
Proof.
  intros Hne.
  assert (Hflt : filter_given (filter_metadata_of (Some filename)) = true).
  { unfold filter_metadata_of. rewrite bool_decide_eq_false_2 by exact Hne. simpl.
    apply negb_true_iff, bool_decide_eq_false_2.
    intros H. apply (f_equal (fun m : metadata_t => m !! "filename")) in H.
    rewrite lookup_singleton_eq, lookup_empty in H. discriminate. }
  assert (Hrag : answer_with_rag self question conversation_id k use_mmr use_rerank
                   eco_mode (Some filename) w
                 = (inl (DatabaseError BadParameter), w)).
  { unfold _answer_with_rag, rag_retrieve, mmr_search, similarity_search.
    rewrite !(fetch_filter _ _ _ _ _ _ Hflt). destruct use_mmr; reflexivity. }
  split; [exact Hrag|].
  intros Hr. unfold query. rewrite Hr. exact Hrag.
Qed.

Ltac shape_done :=
  (split; [reflexivity|]); (split; [reflexivity|]); (split; [reflexivity|]);
  (split; [try (rewrite length_map, length_drop); simpl; lia|]);
  (split; [try discriminate; reflexivity|]);
  (split; [reflexivity | first [reflexivity | discriminate]]).

(** X26. A query calls the LLM at most once.  The request names the
    configured model; its messages are one system message, then at most
    three messages of history (none without conversation id or store),
    then one user message, which on the direct path is the question
    itself; the temperature is 0.7 on the direct path and 0.3 on the
    web search and rag paths. *)
Theorem query_llm_request (self : system) (question : string)
    (conversation_id : option string) (k : nat) (use_mmr use_rerank eco_mode : bool)
    (filter_document : option string) (w : world) :
  let w' := (run_query self question conversation_id k use_mmr use_rerank eco_mode
               filter_document w).2 in
  llm_calls w' = llm_calls w
  \/ exists req sys hist user,
       llm_calls w' = llm_calls w ++ [req]
       /\ req_model req = llm_model self
       /\ req_messages req = mkChat "system" sys :: hist ++ [mkChat "user" user]
       /\ (length hist <= 3)%nat
       /\ (has_history self conversation_id = false -> hist = [])
       /\ req_temperature req
          = (if bool_decide (route question = "direct_llm")
             then 7 # 10 else 3 # 10)
       /\ (route question = "direct_llm" -> user = question).
Proof.
  cbv zeta.
  destruct (query_paths self question conversation_id k use_mmr use_rerank eco_mode
              filter_document) as [[Hr ->] | [[Hr ->] | [Hr ->]]]; rewrite Hr.
  - right. unfold _answer_directly, format_for_llm. run_path.
    destruct (has_history self conversation_id) eqn:Hh; destruct eco_mode; simpl;
      split_llm; simpl; try rewrite Hh; simpl;
      first [eexists _, _, [], _; shape_done | eexists _, _, _, _; shape_done].
  - unfold _answer_with_web_search.
    destruct (web_search self); [|left; reflexivity].
    destruct (WebSearch.search _ _ _ _); [left; reflexivity|].
    right. unfold format_for_llm. run_path.
    destruct (has_history self conversation_id) eqn:Hh; simpl;
      split_llm; simpl; try rewrite Hh; simpl;
      first [eexists _, _, [], _; shape_done | eexists _, _, _, _; shape_done].
  - unfold _answer_with_rag.
    destruct (retrieve _ _ _ _ _) as [[e|pool]|]; [left; reflexivity| |left; reflexivity].
    destruct (rag_rerank _ _ _ _ _ _); [left; reflexivity|].
    right. unfold format_for_llm. run_path.
    destruct (has_history self conversation_id) eqn:Hh; simpl;
      split_llm; simpl; try rewrite Hh; simpl;
      first [eexists _, _, [], _; shape_done | eexists _, _, _, _; shape_done].
Qed.

Lemma imap_sorted {A B : Type} (R : B -> B -> Prop) (f : nat -> A -> B) (l : list A) :
  (forall i j a b, (i < j)%nat -> R (f i a) (f j b)) -> Sorted R (imap f l).
Proof.
  revert f. induction l as [|x l IH]; intros f Hf; [constructor|].
  rewrite imap_cons. constructor.
  - apply IH. intros i j a b Hij. apply Hf. lia.
  - destruct l as [|y l]; [constructor|]. rewrite imap_cons. constructor.
    apply Hf. lia.
Qed.

(** X27. The sources of a web search answer: one per search result, in
    the order of the results; the [i]-th (from 0) is named "Web Search",
    has the title of the [i]-th result as its section, the link of that
    result, the first 200 characters of its snippet followed by "..." as
    content, and the score [1 - i/10]; so the scores are strictly
    descending. *)
Theorem web_sources (self : system) (question : string)
    (conversation_id : option string) (eco_mode : bool) (w w' : world)
    (r : query_result) :
  answer_with_web_search self question conversation_id eco_mode w = (inr r, w') ->
  exists n,
    web_search self = Some n
    /\ length (sources r) = length (WebSearch.search ddgs_text n question (Some 3%nat))
    /\ Sorted (fun a b => src_score b < src_score a) (sources r)
    /\ (forall i s,
          sources r !! i = Some s ->
          exists result,
            WebSearch.search ddgs_text n question (Some 3%nat) !! i = Some result
            /\ src_filename s = Some (JStr "Web Search")
            /\ src_section s = Some (JStr (WebSearch.title result))
            /\ src_link s = Some (WebSearch.link result)
            /\ src_content s = Py.str_take 200 (WebSearch.snippet result) +:+ "..."
            /\ (String.length (src_content s) <= 203)%nat
            /\ src_score s == 1 - inject_Z (Z.of_nat i) / 10).
Proof.
  unfold _answer_with_web_search.
  destruct (web_search self) as [n|]; [|discriminate].
  intros Hrun. exists n. split; [reflexivity|]. revert Hrun.
  destruct (WebSearch.search ddgs_text n question (Some 3%nat)) as [|x xs] eqn:Hs.
  { intros [= <- _]. simpl.
    split; [reflexivity|]. split; [constructor|].
    intros i s H; destruct i; discriminate. }
  set (results := x :: xs).
  set (mk := fun (i : nat) (result : WebSearch.result) =>
               mkSource (Py.str_take 200 (WebSearch.snippet result) +:+ "...")
                        (Some (JStr "Web Search"))
                        (Some (JStr (WebSearch.title result)))
                        (1 - inject_Z (Z.of_nat i) * (1 # 10))
                        (Some (WebSearch.link result))).
  assert (Hsrc : length (imap mk results) = length results
                 /\ Sorted (fun a b => src_score b < src_score a) (imap mk results)
                 /\ (forall i s, imap mk results !! i = Some s ->
                       exists result,
                         results !! i = Some result
                         /\ src_filename s = Some (JStr "Web Search")
                         /\ src_section s = Some (JStr (WebSearch.title result))
                         /\ src_link s = Some (WebSearch.link result)
                         /\ src_content s
                            = Py.str_take 200 (WebSearch.snippet result) +:+ "..."
                         /\ (String.length (src_content s) <= 203)%nat
                         /\ src_score s == 1 - inject_Z (Z.of_nat i) / 10)).
  { split; [apply length_imap|]. split.
    - apply imap_sorted. intros i j a b Hij. unfold mk. cbn [src_score].
      assert (H : inject_Z (Z.of_nat i) < inject_Z (Z.of_nat j))
        by (rewrite <- Zlt_Qlt; lia).
      lra.
    - intros i s H. rewrite list_lookup_imap in H.
      destruct (results !! i) as [res|]; [|discriminate]. injection H as <-.
      exists res. unfold mk.
      cbn [src_filename src_section src_link src_content src_score].
      repeat (split; [reflexivity|]). split.
      + rewrite string_length_app.
        pose proof (str_take_length 200 (WebSearch.snippet res)) as Ht.
        change (String.length "...") with 3%nat. lia.
      + unfold Qdiv. reflexivity. }
  destruct Hsrc as (Hl & Hsorted & Hpoint).
  unfold bind, ret, raise, get_redis, llm_create, when, cm_add_message.
  cbn [redis llm_calls utcnow].
  split_llm; [|discriminate].
  destruct (has_history self conversation_id); cbn [fst snd];
    intros [= <- _]; cbn [sources];
    (split; [exact Hl|]); (split; [exact Hsorted | exact Hpoint]).
Qed.

End RagMore.

(** ** Chunking a document *)

Section ChunkingFacts.
Import DocumentProcessor.
Variable filename title : string.
Variable chunk_size : Z.

Local Abbreviation run := (fold_left (step filename title chunk_size)).

(** What the loop keeps true: the chunk indices count from 0; every
    chunk names the document and has at least one type; the types of the
    chunks and of the text being collected are the types of the sections
    seen; no text is being collected without a type. *)
Lemma chunking_invariant (sections seen : list section) (st : state) :
  map (fun c => cm_chunk_index (metadata c)) (chunks_so_far st)
  = seq 0 (length (chunks_so_far st))
  /\ Forall (fun c => cm_filename (metadata c) = filename
                      /\ cm_title (metadata c) = title
                      /\ cm_types (metadata c) <> []) (chunks_so_far st)
  /\ concat (map (fun c => cm_types (metadata c)) (chunks_so_far st)) ++ current_types st
     = map sec_type seen
  /\ (current_types st = [] -> current_chunk_text st = "") ->
  let st' := run sections st in
  map (fun c => cm_chunk_index (metadata c)) (chunks_so_far st')
  = seq 0 (length (chunks_so_far st'))
  /\ Forall (fun c => cm_filename (metadata c) = filename
                      /\ cm_title (metadata c) = title
                      /\ cm_types (metadata c) <> []) (chunks_so_far st')
  /\ concat (map (fun c => cm_types (metadata c)) (chunks_so_far st')) ++ current_types st'
     = map sec_type (seen ++ sections)
  /\ (current_types st' = [] -> current_chunk_text st' = "").
Proof.
  revert seen st. induction sections as [|s sections IH]; intros seen st Hinv.
  { simpl. rewrite app_nil_r. exact Hinv. }
  destruct Hinv as (Hidx & Hall & Htypes & Htext).
  cbn [fold_left]. cbv zeta.
  replace (seen ++ s :: sections) with ((seen ++ [s]) ++ sections)
    by (rewrite <- app_assoc; reflexivity).
  apply IH. unfold step.
  destruct (if bool_decide (sec_type s ∈ ["section_header"; "heading"; "title"; "h1"])
            then _ else _) as [sec subsec].
  destruct (_ <=? _)%Z; cbn [chunks_so_far current_types current_chunk_text].
  - split; [|split; [|split; [|reflexivity]]].
    + rewrite map_app, length_app, seq_app, Hidx. reflexivity.
    + apply Forall_app. split; [exact Hall|]. constructor; [|constructor].
      cbn. split; [reflexivity|]. split; [reflexivity|].
      destruct (current_types st); discriminate.
    + rewrite map_app, concat_app, map_app, <- Htypes. cbn.
      rewrite !app_nil_r, <- app_assoc. reflexivity.
  - split; [exact Hidx|]. split; [exact Hall|]. split.
    + rewrite map_app, <- Htypes, <- app_assoc. reflexivity.
    + intros H. destruct (current_types st); discriminate.
Qed.

(** X28. The chunks of [chunk_document] are numbered 0, 1, 2, ... in their
    [chunk_index]; each carries the filename and title of the document
    and at least one section type; their types, in order, are the types
    of the first sections of the document, so no chunk repeats or
    reorders a section; and there are at most as many chunks as sections. *)
Theorem chunk_document_metadata (sections : list section) :
  let chunks := chunk_document filename title chunk_size sections in
  map (fun c => cm_chunk_index (metadata c)) chunks = seq 0 (length chunks)
  /\ Forall (fun c => cm_filename (metadata c) = filename
                      /\ cm_title (metadata c) = title
                      /\ cm_types (metadata c) <> []) chunks
  /\ concat (map (fun c => cm_types (metadata c)) chunks)
     `prefix_of` map sec_type sections
  /\ (length chunks <= length sections)%nat.
Proof.
  cbv zeta. unfold chunk_document.
  destruct (chunking_invariant sections [] (mkState [] "" None None []))
    as (Hidx & Hall & Htypes & Htext).
  { simpl. repeat split; constructor. }
  set (st := run sections (mkState [] "" None None [])) in *.
  simpl in Htypes.
  assert (Hcount : (length (chunks_so_far st)
                    + (if bool_decide (current_types st = []) then 0 else 1)
                    <= length sections)%nat).
  { rewrite <- (length_map sec_type sections), <- Htypes, length_app.
    assert (H1 : (length (chunks_so_far st)
                  <= length (concat (map (fun c => cm_types (metadata c))
                                         (chunks_so_far st))))%nat).
    { clear -Hall. induction Hall as [|c l (_ & _ & Hc) _ IH]; simpl; [lia|].
      rewrite length_app. destruct (cm_types (metadata c)); [congruence | simpl; lia]. }
    case_bool_decide as Ht; [lia|].
    destruct (current_types st); [congruence | simpl; lia]. }
  destruct (decide (strip (current_chunk_text st) = "")) as [Hblank | Hblank];
    [rewrite bool_decide_eq_true_2 by exact Hblank
    |rewrite bool_decide_eq_false_2 by exact Hblank].
  - split; [exact Hidx|]. split; [exact Hall|].
    split; [rewrite <- Htypes; apply prefix_app_r; reflexivity|].
    case_bool_decide; lia.
  - assert (Hne : current_types st <> []).
    { intros H. apply Htext in H. rewrite H in Hblank. apply Hblank. reflexivity. }
    split; [|split; [|split]].
    + rewrite map_app, length_app, seq_app, Hidx. reflexivity.
    + apply Forall_app. split; [exact Hall|]. constructor; [|constructor].
      cbn. auto.
    + rewrite map_app, concat_app, <- Htypes. cbn. rewrite app_nil_r. reflexivity.
    + rewrite length_app. simpl. rewrite bool_decide_eq_false_2 in Hcount by exact Hne.
      lia.
Qed.

(** Made of whitespace only. *)
Local Abbreviation blank s := (forallb is_space (list_ascii_of_string s)).

Lemma lstrip_blank (s : string) : blank (lstrip s) = blank s.
Proof.
  induction s as [|c s IH]; [reflexivity|]. simpl.
  destruct (is_space c) eqn:E; [exact IH|]. simpl. rewrite E. reflexivity.
Qed.

Lemma rstrip_empty (s : string) : rstrip s = "" <-> blank s = true.
Proof.
  induction s as [|c s IH]; [simpl; tauto|]. simpl.
  destruct (rstrip s) eqn:Er.
  - destruct (is_space c); simpl; [tauto|]. split; discriminate.
  - split; [discriminate|]. intros [_ H]%andb_true_iff.
    apply IH in H. discriminate.
Qed.

Lemma strip_empty (s : string) : strip s = "" <-> blank s = true.
Proof. unfold strip. rewrite rstrip_empty, lstrip_blank. reflexivity. Qed.

Lemma blank_app (a b : string) : blank (a +:+ b) = blank a && blank b.
Proof.
  induction a as [|c a IH]; [reflexivity|]. simpl. rewrite IH, andb_assoc. reflexivity.
Qed.

(** Text collected from non-blank sections is not blank. *)
Lemma run_nonblank (sections : list section) (st : state) :
  Forall (fun s => strip (sec_text s) <> "") sections ->
  (strip (current_chunk_text st) = "" -> current_types st = []) ->
  strip (current_chunk_text (run sections st)) = "" -> current_types (run sections st) = [].
Proof.
  intros Hall. revert st. induction Hall as [|s sections Hs _ IH]; intros st Hst; [exact Hst|].
  cbn [fold_left]. apply IH. unfold step.
  destruct (if bool_decide (sec_type s ∈ ["section_header"; "heading"; "title"; "h1"])
            then _ else _) as [sec subsec].
  destruct (_ <=? _)%Z; cbn [current_types current_chunk_text]; [reflexivity|].
  intros Hb. exfalso. apply Hs. apply strip_empty. apply strip_empty in Hb.
  case_bool_decide; [exact Hb|].
  rewrite !blank_app in Hb. apply andb_true_iff in Hb as [_ Hb].
  apply andb_true_iff in Hb as [_ Hb]. apply andb_true_iff in Hb as [_ Hb]. exact Hb.
Qed.

(** X29. When no section is blank (as [extract_text] ensures), every section
    goes into exactly one chunk: the types of the chunks, in order, are
    the types of all the sections. *)
Theorem chunk_document_complete (sections : list section) :
  Forall (fun s => strip (sec_text s) <> "") sections ->
  concat (map (fun c => cm_types (metadata c))
              (chunk_document filename title chunk_size sections))
  = map sec_type sections.
Proof.
  intros Hnb. unfold chunk_document.
  destruct (chunking_invariant sections [] (mkState [] "" None None []))
    as (_ & _ & Htypes & _).
  { simpl. repeat split; constructor. }
  pose proof (run_nonblank sections (mkState [] "" None None []) Hnb (fun _ => eq_refl))
    as Hrun.
  set (st := run sections (mkState [] "" None None [])) in *.
  simpl in Htypes.
  destruct (decide (strip (current_chunk_text st) = "")) as [Hblank | Hblank];
    [rewrite bool_decide_eq_true_2 by exact Hblank
    |rewrite bool_decide_eq_false_2 by exact Hblank].
  - rewrite (Hrun Hblank), app_nil_r in Htypes. exact Htypes.
  - rewrite map_app, concat_app, <- Htypes. cbn. rewrite app_nil_r. reflexivity.
Qed.

Lemma run_every_section (sections : list section) (st : state) :
  (chunk_size <= 0)%Z ->
  current_chunk_text st = "" -> current_types st = [] ->
  let st' := run sections st in
  current_chunk_text st' = ""
  /\ map (fun c => (content c, cm_types (metadata c))) (chunks_so_far st')
     = map (fun c => (content c, cm_types (metadata c))) (chunks_so_far st)
       ++ map (fun s => (strip (sec_text s), [sec_type s])) sections.
Proof.
  intros Hsize. revert st. induction sections as [|s sections IH]; intros st Htext Htypes.
  { simpl. rewrite app_nil_r. auto. }
  cbn [fold_left]. cbv zeta.
  assert (Hstep : exists sec subsec,
            step filename title chunk_size st s
            = mkState (chunks_so_far st
                       ++ [emit filename title st (sec_text s) sec subsec [sec_type s]])
                      "" sec subsec []).
  { unfold step.
    destruct (if bool_decide (sec_type s ∈ ["section_header"; "heading"; "title"; "h1"])
              then _ else _) as [sec subsec].
    rewrite Htext, Htypes. cbn [bool_decide]. rewrite bool_decide_eq_true_2 by reflexivity.
    replace (chunk_size <=? Z.of_nat (String.length (sec_text s)))%Z with true
      by (symmetry; apply Z.leb_le; lia).
    eauto. }
  destruct Hstep as (sec & subsec & ->).
  destruct (IH (mkState (chunks_so_far st
                         ++ [emit filename title st (sec_text s) sec subsec [sec_type s]])
                        "" sec subsec []) eq_refl eq_refl) as [H1 H2].
  split; [exact H1|]. rewrite H2. cbn [chunks_so_far].
  rewrite map_app, <- app_assoc. reflexivity.
Qed.

(** X30. With a chunk size of zero or less, every section becomes a chunk of
    its own: the contents are the stripped texts of the sections and each
    chunk has the one type of its section, also for blank sections. *)
Theorem chunk_document_every_section (sections : list section) :
  (chunk_size <= 0)%Z ->
  map (fun c => (content c, cm_types (metadata c)))
      (chunk_document filename title chunk_size sections)
  = map (fun s => (strip (sec_text s), [sec_type s])) sections.
Proof.
  intros Hsize. unfold chunk_document.
  destruct (run_every_section sections (mkState [] "" None None []) Hsize eq_refl eq_refl)
    as [Htext Hchunks].
  rewrite Htext. exact Hchunks.
Qed.

End ChunkingFacts.

(** ** Closed instances of the further properties *)

Section MoreInstances.
Import VectorStore StoreOps Conversation ConversationOps RAG Fixtures FixturesMore.

Lemma insert_chunks_appends_witness :
  let table' := (insert_chunks next_id 2 [chunk_c; chunk_c] table4).2 in
  insert_chunks next_id 2 [chunk_c; chunk_c] table4 = (inr 2%nat, table')
  /\ (2%nat = length [chunk_c; chunk_c]
      /\ Forall (fun c => length (chunk_embedding c) = 2%nat) [chunk_c; chunk_c]
      /\ (exists news,
            table' = table4 ++ news
            /\ map (fun r => mkChunk (row_content r) (row_metadata r) (row_embedding r))
                   news = [chunk_c; chunk_c])
      /\ count_chunks None table' = (count_chunks None table4 + 2)%nat).
Proof.
  cbv zeta.
  assert (H : insert_chunks next_id 2 [chunk_c; chunk_c] table4
              = (inr 2%nat, (insert_chunks next_id 2 [chunk_c; chunk_c] table4).2))
    by (vm_compute; reflexivity).
  split; [exact H|].
  exact (insert_chunks_appends next_id 2 [chunk_c; chunk_c] table4 _ 2 H).
Defined.

Lemma insert_chunks_atomic_witness :
  Exists (fun c => length (chunk_embedding c) <> 2%nat) [chunk_c; chunk_short]
  /\ exists e, insert_chunks next_id 2 [chunk_c; chunk_short] table4 = (inl e, table4).
Proof.
  assert (H : Exists (fun c => length (chunk_embedding c) <> 2%nat) [chunk_c; chunk_short])
    by (apply Exists_cons_tl, Exists_cons_hd; discriminate).
  split; [exact H|].
  exact (insert_chunks_atomic next_id 2 [chunk_c; chunk_short] table4 H).
Defined.

Lemma insert_chunks_unique_ids_witness :
  NoDup (map row_id table4)
  /\ NoDup (map row_id (insert_chunks next_id 2 [chunk_c; chunk_c] table4).2).
Proof.
  split; [exact table4_ids|].
  exact (insert_chunks_unique_ids next_id 2 [chunk_c; chunk_c] table4 table4_ids).
Defined.

Lemma delete_document_removes_witness :
  "a.pdf" <> ""
  /\ ((delete_document "a.pdf" table4).1 = count_chunks (Some "a.pdf") table4
      /\ count_chunks (Some "a.pdf") (delete_document "a.pdf" table4).2 = O
      /\ ("a.pdf" ∉ get_all_documents String.leb (delete_document "a.pdf" table4).2)
      /\ ((delete_document "a.pdf" table4).1
          + count_chunks None (delete_document "a.pdf" table4).2
          = count_chunks None table4)%nat).
Proof.
  assert (H : "a.pdf" <> "") by discriminate.
  split; [exact H|].
  exact (delete_document_removes String.leb "a.pdf" table4 H).
Defined.

Lemma delete_document_frame_witness :
  "b.pdf" <> "a.pdf"
  /\ (filter (of_document "b.pdf") (delete_document "a.pdf" table4).2
      = filter (of_document "b.pdf") table4
      /\ ("b.pdf" <> "" ->
          count_chunks (Some "b.pdf") (delete_document "a.pdf" table4).2
          = count_chunks (Some "b.pdf") table4)
      /\ (NoDup (map row_id table4) ->
          NoDup (map row_id (delete_document "a.pdf" table4).2))).
Proof.
  assert (H : "b.pdf" <> "a.pdf") by discriminate.
  split; [exact H|].
  exact (delete_document_frame "a.pdf" "b.pdf" table4 H).
Defined.

(** The index probes the list around the first axis: three of the four
    chunks are reached, and a search for ten returns these three. *)
Lemma similarity_search_top_k_witness :
  filter_given None = false
  /\ exists kept dropped,
       index_scan first_axis_list table4 [1; 0] ≡ₚ kept ++ dropped
       /\ similarity_search unit_cosine_distance first_axis_list table4 [1; 0] 10 None
          = inr (map (fun r => (dict_of_row (select_list unit_cosine_distance [1; 0] r),
                                1 - unit_cosine_distance (row_embedding r) [1; 0]))
                     kept)
       /\ length kept
          = Nat.min 10 (length (index_scan first_axis_list table4 [1; 0]%Q))
       /\ (forall x y, x ∈ kept -> y ∈ dropped ->
           unit_cosine_distance (row_embedding x) [1; 0]
           <= unit_cosine_distance (row_embedding y) [1; 0])
       /\ ((length (index_scan first_axis_list table4 [1; 0]%Q) <= 10)%nat ->
           dropped = []).
Proof.
  split; [reflexivity|].
  exact (similarity_search_top_k unit_cosine_distance first_axis_list table4 [1; 0] 10
           None eq_refl).
Defined.

Lemma search_filter_raises_witness :
  file "a.pdf" <> ∅
  /\ similarity_search unit_cosine_distance seq_scan table4 [1; 0] 5 (Some (file "a.pdf"))
     = inl BadParameter
  /\ mmr_search unit_cosine_distance seq_scan table4 [1; 0] 5 (1 # 2) 20
       (Some (file "a.pdf"))
     = Some (inl BadParameter).
Proof.
  assert (H : file "a.pdf" <> ∅).
  { intros E. apply (f_equal (fun m : metadata_t => m !! "filename")) in E.
    unfold file in E. rewrite lookup_singleton_eq, lookup_empty in E. discriminate. }
  split; [exact H|].
  exact (search_filter_raises unit_cosine_distance seq_scan table4 [1; 0] 5 20 (1 # 2)
           (file "a.pdf") H).
Defined.

Lemma mmr_search_from_fetch_witness :
  filter_given None = false
  /\ exists candidates res,
       fetch unit_cosine_distance first_axis_list table4 [1; 0] 20 None = inr candidates
       /\ mmr_search unit_cosine_distance first_axis_list table4 [1; 0] 2 (1 # 2) 20 None
          = Some (inr res)
       /\ length res = Nat.min 2 (length candidates)
       /\ (length candidates <= Nat.min 20 (length table4))%nat
       /\ res ⊆+ map (fun d => (chunk_of_row d, similarity d)) candidates
       /\ ((1 <= 2)%nat ->
           head res = head (map (fun d => (chunk_of_row d, similarity d)) candidates)).
Proof.
  split; [reflexivity|].
  exact (mmr_search_from_fetch unit_cosine_distance first_axis_list table4 [1; 0] 2
           (1 # 2) 20 None eq_refl).
Defined.

Lemma mmr_search_reorders_witness :
  (fetch unit_cosine_distance seq_scan table4 [1; 0] 20 None = inr (first4 :: rest4)
   /\ (length (first4 :: rest4) <= 5)%nat)
  /\ exists res found,
       mmr_search unit_cosine_distance seq_scan table4 [1; 0] 5 (1 # 2) 20 None
       = Some (inr res)
       /\ similarity_search unit_cosine_distance seq_scan table4 [1; 0] 20 None
          = inr found
       /\ res ≡ₚ map (fun p => (Spec.chunk_of p.1, p.2)) found.
Proof.
  assert (H1 : fetch unit_cosine_distance seq_scan table4 [1; 0] 20 None
               = inr (first4 :: rest4)) by (vm_compute; reflexivity).
  assert (H2 : (length (first4 :: rest4) <= 5)%nat) by (vm_compute; lia).
  split; [split; assumption|].
  exact (mmr_search_reorders unit_cosine_distance seq_scan table4 [1; 0] 5 (1 # 2) 20
           None (first4 :: rest4) H1 H2).
Defined.

Lemma list_conversations_lists_witness :
  Py.contains "c1" "conversation:" = false
  /\ "c1" ∈ list_conversations (add_message 0 "c1" "user" "hi" None ∅).
Proof.
  assert (H : Py.contains "c1" "conversation:" = false) by reflexivity.
  split; [exact H|].
  exact (list_conversations_lists 0 "c1" "user" "hi" None ∅ H).
Defined.

Lemma query_tool_used_witness :
  exists r w',
    query lower unit_cosine_distance seq_scan length_encoder embed_axis echo_llm one_hit two_decimals
      table4 full_system "latest news today" (Some "c1") 2 false false false None world0
    = (inr r, w')
    /\ tool_used r = _route_to_tool lower "latest news today".
Proof.
  eexists _, _. split; [vm_compute; reflexivity|].
  eapply (query_tool_used lower unit_cosine_distance seq_scan length_encoder embed_axis echo_llm one_hit
            two_decimals table4 full_system "latest news today" (Some "c1") 2 false false
            false None world0).
  vm_compute. reflexivity.
Defined.

Lemma query_web_search_disabled_witness :
  let offline := mkSystem true true "gpt-3.5-turbo" None in
  (web_search offline = None /\ _route_to_tool lower "latest news today" = "web_search")
  /\ query lower unit_cosine_distance seq_scan length_encoder embed_axis echo_llm one_hit two_decimals
       table4 offline "latest news today" (Some "c1") 2 false false false None world0
     = (inl AttributeError, world0).
Proof.
  cbv zeta.
  assert (H1 : web_search (mkSystem true true "gpt-3.5-turbo" None) = None) by reflexivity.
  assert (H2 : _route_to_tool lower "latest news today" = "web_search")
    by (vm_compute; reflexivity).
  split; [split; assumption|].
  exact (query_web_search_disabled lower unit_cosine_distance seq_scan length_encoder embed_axis echo_llm
           one_hit two_decimals table4 _ "latest news today" (Some "c1") 2 false false
           false None world0 H1 H2).
Defined.

Lemma query_stateless_witness :
  (@None string = None \/ @None string = Some "" \/ conversation_manager full_system = false)
  /\ redis (query lower unit_cosine_distance seq_scan length_encoder embed_axis echo_llm one_hit
              two_decimals table4 full_system "what does the document say about layers"
              None 2 false true false None world0).2
     = redis world0.
Proof.
  assert (H : @None string = None \/ @None string = Some ""
              \/ conversation_manager full_system = false) by (left; reflexivity).
  split; [exact H|].
  exact (query_stateless lower unit_cosine_distance seq_scan length_encoder embed_axis echo_llm one_hit
           two_decimals table4 full_system "what does the document say about layers"
           None 2 false true false None world0 H).
Defined.

Lemma rag_sources_witness :
  exists r w',
    _answer_with_rag unit_cosine_distance seq_scan length_encoder embed_axis echo_llm two_decimals
      table4 bare_system "what does the document say about layers" (Some "c1") 1 false
      true false None world0
    = (inr r, w')
    /\ (length (sources r) <= 1 * 2)%nat
    /\ Forall (fun s => exists row,
                 row ∈ table4
                 /\ where_clause (filter_metadata_of None) row = true
                 /\ src_content s = Py.str_take 200 (row_content row) +:+ "..."
                 /\ (String.length (src_content s) <= 203)%nat
                 /\ src_filename s = row_metadata row !! "filename"
                 /\ src_link s = None)
              (sources r).
Proof.
  eexists _, _. split; [vm_compute; reflexivity|].
  eapply (rag_sources unit_cosine_distance seq_scan length_encoder embed_axis echo_llm two_decimals
            table4 bare_system "what does the document say about layers" (Some "c1") 1
            false true false None world0).
  vm_compute. reflexivity.
Defined.

Lemma rag_filter_raises_witness :
  "a.pdf" <> ""
  /\ _answer_with_rag unit_cosine_distance seq_scan length_encoder embed_axis echo_llm
       two_decimals table4 full_system "what does the document say about layers"
       (Some "c1") 2 false true false (Some "a.pdf") world0
     = (inl (DatabaseError BadParameter), world0)
  /\ (_route_to_tool lower "what does the document say about layers" = "rag" ->
      query lower unit_cosine_distance seq_scan length_encoder embed_axis echo_llm no_hits
        two_decimals table4 full_system "what does the document say about layers"
        (Some "c1") 2 false true false (Some "a.pdf") world0
      = (inl (DatabaseError BadParameter), world0)).
Proof.
  assert (H : "a.pdf" <> "") by discriminate.
  split; [exact H|].
  exact (rag_filter_raises lower unit_cosine_distance seq_scan length_encoder embed_axis
           echo_llm no_hits two_decimals table4 full_system
           "what does the document say about layers" (Some "c1") 2 false true false
           "a.pdf" world0 H).
Defined.

Lemma web_sources_witness :
  exists r w',
    _answer_with_web_search echo_llm one_hit full_system "latest news today" (Some "c1")
      false world0
    = (inr r, w')
    /\ exists n,
         web_search full_system = Some n
         /\ length (sources r)
            = length (WebSearch.search one_hit n "latest news today" (Some 3%nat))
         /\ Sorted (fun a b => src_score b < src_score a) (sources r)
         /\ (forall i s,
               sources r !! i = Some s ->
               exists result,
                 WebSearch.search one_hit n "latest news today" (Some 3%nat) !! i
                 = Some result
                 /\ src_filename s = Some (JStr "Web Search")
                 /\ src_section s = Some (JStr (WebSearch.title result))
                 /\ src_link s = Some (WebSearch.link result)
                 /\ src_content s
                    = Py.str_take 200 (WebSearch.snippet result) +:+ "..."
                 /\ (String.length (src_content s) <= 203)%nat
                 /\ src_score s == 1 - inject_Z (Z.of_nat i) / 10).
Proof.
  eexists _, _. split; [vm_compute; reflexivity|].
  eapply (web_sources echo_llm one_hit full_system "latest news today" (Some "c1") false
            world0).
  vm_compute. reflexivity.
Defined.

Lemma chunk_document_complete_witness :
  Forall (fun s => DocumentProcessor.strip (DocumentProcessor.sec_text s) <> "") sections3
  /\ concat (map (fun c => DocumentProcessor.cm_types (DocumentProcessor.metadata c))
                 (DocumentProcessor.chunk_document "a.pdf" "Deep Learning" 1000 sections3))
     = map DocumentProcessor.sec_type sections3.
Proof.
  assert (H : Forall (fun s => DocumentProcessor.strip (DocumentProcessor.sec_text s) <> "")
                     sections3)
    by (repeat constructor; discriminate).
  split; [exact H|].
  exact (chunk_document_complete "a.pdf" "Deep Learning" 1000 sections3 H).
Defined.

Lemma chunk_document_every_section_witness :
  (0 <= 0)%Z
  /\ map (fun c => (DocumentProcessor.content c,
                    DocumentProcessor.cm_types (DocumentProcessor.metadata c)))
         (DocumentProcessor.chunk_document "a.pdf" "Deep Learning" 0 sections3)
     = map (fun s => (DocumentProcessor.strip (DocumentProcessor.sec_text s),
                      [DocumentProcessor.sec_type s]))
           sections3.
Proof.
  assert (H : (0 <= 0)%Z) by lia.
  split; [exact H|].
  exact (chunk_document_every_section "a.pdf" "Deep Learning" 0 sections3 H).
Defined.

End MoreInstances.
